(** * SEVIRI native reader: geometry, boundaries and calibration dispatch

    A shallow embedding of [satpy/readers/seviri_l1b_native.py]: the header
    metadata extraction, the region-of-interest test, the image boundary
    resolution, the area extent computation and the calibration dispatch of
    [NativeMSGFileHandler], together with [ImageBoundaries] and [Padder].

    Python values are modelled as the interpreter has them: [int] is [Z],
    [float] is IEEE 754 binary64 (Rocq's primitive [float], rounding to
    nearest even as CPython does), exceptions are the [Raise] branch of
    [result].  The numpy scalars of a decoded file are taken as these
    values: a 32-bit integer as the integer it holds, a single-precision
    number as the binary64 number of the same value; the wrap-around of
    32-bit sums and the rounding of single-precision products are not
    modelled.  Strings hold 8-bit characters, and [upper] is Python's
    [str.upper] on ASCII text.  File access ([_get_memmap],
    [_read_trailer], the record layout of [_get_data_dtype]) and the
    acquisition times are not modelled: a file enters as its decoded
    header and trailer, and the projection library that [get_area_def]
    calls is a parameter. *)

From Stdlib Require Import ZArith Floats List String Ascii Bool Lia.
Import ListNotations.

Local Open Scope string_scope.
Local Open Scope Z_scope.

(** Decimal float literals stand for the nearest binary64 value. *)
#[local] Set Warnings "-inexact-float".

(** ** Exceptions *)

Inductive exn : Type :=
| KeyError
| ValueError
| IndexError
| OverflowError
| NotImplementedError
| UnboundLocalError.

Inductive result (A : Type) : Type :=
| Ok (a : A)
| Raise (e : exn).

Arguments Ok {A} a.
Arguments Raise {A} e.

Definition bind {A B : Type} (m : result A) (k : A -> result B) : result B :=
  match m with
  | Ok a => k a
  | Raise e => Raise e
  end.

Declare Scope py_scope.
Delimit Scope py_scope with py.

Notation "x <- m ;; k" := (bind m (fun x => k))
  (at level 61, m at next level, right associativity) : py_scope.
Notation "' pat <- m ;; k" := (bind m (fun x => match x with pat => k end))
  (at level 61, pat pattern, m at next level, right associativity) : py_scope.

Local Open Scope py_scope.

Fixpoint mapM {A B : Type} (f : A -> result B) (l : list A) : result (list B) :=
  match l with
  | [] => Ok []
  | a :: l' => b <- f a ;; bs <- mapM f l' ;; Ok (b :: bs)
  end.

(** ** Python numbers *)

Module PyNum.

(** [float(z)] for a Python [int]: the nearest binary64, ties to even;
    [OverflowError] when that is not finite. *)
Definition float_of_int (z : Z) : result float :=
  match SpecFloat.binary_normalize prec emax z 0 false with
  | S754_infinity _ => Raise OverflowError
  | sf => Ok (SF2Prim sf)
  end.

(** [z / 2] for a Python [int]: true division returns the correctly rounded
    quotient, which for the divisor 2 is [z * 2^-1] rounded once. *)
Definition int_truediv_2 (z : Z) : result float :=
  match SpecFloat.binary_normalize prec emax z (-1) false with
  | S754_infinity _ => Raise OverflowError
  | sf => Ok (SF2Prim sf)
  end.

(** [int(f)] for a Python [float]: truncation towards zero. *)
Definition int_of_float (f : float) : result Z :=
  match Prim2SF f with
  | S754_zero _ => Ok 0
  | S754_finite s m e =>
      let a := if 0 <=? e then Z.pos m * 2 ^ e else Z.pos m / 2 ^ (- e) in
      Ok (if s then - a else a)
  | S754_infinity _ => Raise OverflowError
  | S754_nan => Raise ValueError
  end.

Inductive pynum : Type :=
| PyInt (z : Z)
| PyFloat (f : float).

Definition to_float (x : pynum) : result float :=
  match x with
  | PyInt z => float_of_int z
  | PyFloat f => Ok f
  end.

(** Binary arithmetic: two [int]s stay [int]; otherwise both operands are
    taken to [float], the left one first. *)
Definition arith (fz : Z -> Z -> Z) (ff : float -> float -> float)
           (x y : pynum) : result pynum :=
  match x, y with
  | PyInt a, PyInt b => Ok (PyInt (fz a b))
  | _, _ => a <- to_float x ;; b <- to_float y ;; Ok (PyFloat (ff a b))
  end.

Definition add := arith Z.add PrimFloat.add.
Definition sub := arith Z.sub PrimFloat.sub.
Definition mul := arith Z.mul PrimFloat.mul.

(** Expressions: operands are evaluated left to right and the first
    exception propagates. *)
Definition expr := result pynum.

Definition lit (x : pynum) : expr := Ok x.

Definition lift2 (op : pynum -> pynum -> result pynum) (x y : expr) : expr :=
  a <- x ;; b <- y ;; op a b.

End PyNum.

Import PyNum.
Coercion lit : pynum >-> expr.

Declare Scope pyexpr_scope.
Delimit Scope pyexpr_scope with pyx.
Bind Scope pyexpr_scope with expr.

Notation "x + y" := (lift2 add x y) : pyexpr_scope.
Notation "x - y" := (lift2 sub x y) : pyexpr_scope.
Notation "x * y" := (lift2 mul x y) : pyexpr_scope.

(** ** Constants of [satpy.readers.seviri_base] *)

(** Modelled from the spec: the module [seviri_base] defining the grid sizes
    is not part of the sources; the full-disk column count of the standard
    grid is 3712. *)
Definition VISIR_NUM_COLUMNS : Z := 3712.

(** Modelled from the spec: [seviri_base] is not part of the sources; the
    full-disk line count of the standard grid is 3712 (the north bound of a
    full disk). *)
Definition VISIR_NUM_LINES : Z := 3712.

(** Modelled from the spec: [seviri_base] is not part of the sources; the
    high-resolution channel is sampled at three times the standard grid,
    3 * 3712 = 11136 columns. *)
Definition HRV_NUM_COLUMNS : Z := 11136.

(** Modelled from the spec: [seviri_base] is not part of the sources; the
    high-resolution channel is sampled at three times the standard grid,
    3 * 3712 = 11136 lines. *)
Definition HRV_NUM_LINES : Z := 11136.

(** ** Area extent of one window *)

Definition extent : Type := (pynum * pynum * pynum * pynum)%type.

Definition _calculate_area_extent
    (center_point north east south west
     we_offset ns_offset column_step line_step : pynum) : result extent :=
  ll_c <- ((center_point - east + PyFloat 0.5 + we_offset) * column_step)%pyx ;;
  ll_l <- ((north - center_point + PyFloat 0.5 + ns_offset) * line_step)%pyx ;;
  ur_c <- ((center_point - west - PyFloat 0.5 + we_offset) * column_step)%pyx ;;
  ur_l <- ((south - center_point - PyFloat 0.5 + ns_offset) * line_step)%pyx ;;
  Ok (ll_c, ll_l, ur_c, ur_l).


(** ** Python dictionaries, lists and strings *)

Section Dict.
Context {K V : Type} (eqb : K -> K -> bool).

(** [d[k]] *)
Fixpoint dict_get (k : K) (d : list (K * V)) : result V :=
  match d with
  | [] => Raise KeyError
  | (k', v) :: d' => if eqb k k' then Ok v else dict_get k d'
  end.

(** [d[k] = v]: an existing key keeps its place. *)
Fixpoint dict_set (k : K) (v : V) (d : list (K * V)) : list (K * V) :=
  match d with
  | [] => [(k, v)]
  | (k', v') :: d' =>
      if eqb k k' then (k, v) :: d' else (k', v') :: dict_set k v d'
  end.

Definition values (d : list (K * V)) : list V := map snd d.
End Dict.

(** [l.index(x)] *)
Fixpoint index (x : string) (l : list string) : result Z :=
  match l with
  | [] => Raise ValueError
  | y :: l' => if (x =? y)%string then Ok 0 else i <- index x l' ;; Ok (i + 1)
  end.

(** [x in l] *)
Definition contains (x : string) (l : list string) : bool :=
  existsb (String.eqb x) l.

(** [l[i]] for a header array indexed by a position [index] returned. *)
Definition getitem {A : Type} (l : list A) (i : Z) : result A :=
  if i <? 0 then Raise IndexError
  else match nth_error l (Z.to_nat i) with
       | Some a => Ok a
       | None => Raise IndexError
       end.

Definition upper_ascii (c : ascii) : ascii :=
  let n := N_of_ascii c in
  if ((97 <=? n) && (n <=? 122))%N then ascii_of_N (n - 32) else c.

(** [s.upper()] on ASCII text: the letters a to z are raised and every
    other character is kept.  Python's [str.upper] also maps characters
    outside ASCII (the dotless i to I, the long s to S), which a string of
    8-bit characters does not hold; the statements on mode strings are
    for ASCII text, [ascii_text] below. *)
Fixpoint upper (s : string) : string :=
  match s with
  | EmptyString => EmptyString
  | String c s' => String (upper_ascii c) (upper s')
  end.

Fixpoint chars (s : string) : list ascii :=
  match s with
  | EmptyString => []
  | String c s' => c :: chars s'
  end.

(** ** The decoded file: header and trailer records

    Each record is one nesting level of the structured arrays that
    [recarray2dict] turns into dictionaries; only the fields the reader
    looks up are kept.  A ['Value'] field of the secondary header holds the
    integer that [int(...)] reads from it. *)

Record EarthModel := {
  TypeOfEarthModel : Z;
  EquatorialRadius : float;
  NorthPolarRadius : float;
  SouthPolarRadius : float
}.

Record ReferenceGrid := {
  GridOrigin : Z;
  ColumnDirGridStep : float;
  LineDirGridStep : float
}.

Record ImageDescription := {
  LongitudeOfSSP : float;
  ReferenceGridHRV : ReferenceGrid;
  ReferenceGridVIS_IR : ReferenceGrid;
  PlannedChanProcessing : list Z
}.

Record RadiometricProcessing := {
  CalSlope : list float;
  CalOffset : list float;
  GSICSCalCoeff : list float;
  GSICSOffsetCount : list float
}.

Record DataHeader := {
  SatelliteId : Z;
  GeometricProcessing : EarthModel;
  ImageDescr : ImageDescription;
  Radiometric : RadiometricProcessing
}.

Record SecondaryProductHeader := {
  SelectedBandIDs : string;
  NorthLineSelectedRectangle : Z;
  EastColumnSelectedRectangle : Z;
  SouthLineSelectedRectangle : Z;
  WestColumnSelectedRectangle : Z;
  NumberColumnsVISIR : Z;
  NumberColumnsHRV : Z;
  NumberLinesVISIR : Z;
  NumberLinesHRV : Z
}.

Record Header := {
  data15hd : DataHeader;
  sec15hd : SecondaryProductHeader
}.

Record HRVWindow := {
  SouthLineActual : Z;
  NorthLineActual : Z;
  EastColumnActual : Z;
  WestColumnActual : Z
}.

Record Trailer := {
  ReducedScan : bool;
  LowerActual : HRVWindow;
  UpperActual : HRVWindow
}.

(** [self.mda] *)
Record ProjectionParameters := {
  proj_a : float;
  proj_b : float;
  proj_h : float;
  ssp_longitude : float
}.

Record Metadata := {
  available_channels : list (string * bool);
  channel_list : list string;
  platform_name : string;
  projection_parameters : ProjectionParameters;
  is_full_disk : bool;
  number_of_lines : Z;
  number_of_columns : Z;
  hrv_number_of_lines : Z;
  hrv_number_of_columns : Z
}.

Record DatasetId := {
  name : string;
  calibration : string
}.

(** ** Data arrays *)

Definition raster (A : Type) : Type := list (list A).

Record Attrs := {
  units : string;
  wavelength : list float;
  standard_name : string;
  attr_platform_name : string;
  sensor : string;
  orbital_parameters : float * float * float
}.

Record DataArray := {
  data : raster float;
  attrs : option Attrs
}.

Record DatasetInfo := {
  info_units : string;
  info_wavelength : list float;
  info_standard_name : string
}.

(** The sample at line [i], column [j]. *)
Definition cell {A : Type} (r : raster A) (i j : nat) : option A :=
  match nth_error r i with
  | Some row => nth_error row j
  | None => None
  end.

(** ** What the reader imports from [satpy.readers.seviri_base]

    The tables and the calibration and padding helpers are defined outside
    the sources; the reader is modelled over any choice of them.  The
    conversions take the arguments the calibration engine hands them:
    radiance from (counts, gain, offset), reflectance from (radiance, solar
    irradiance), brightness temperature from (radiance, channel, conversion
    type). *)
Class SeviriBase := {
  CHANNEL_NAMES : list (Z * string);
  VIS_CHANNELS : list string;
  SATNUM : list (Z * string);
  CALIB : list (Z * list (string * list (string * float)));
  _convert_to_radiance : DataArray -> float -> float -> result DataArray;
  _vis_calibrate : DataArray -> float -> result DataArray;
  _ir_calibrate : DataArray -> string -> Z -> result DataArray;
  pad_data_horizontally :
    raster float -> Z * Z -> Z -> Z -> result (raster float);
  pad_data_vertically :
    raster float -> Z * Z -> Z -> Z -> result (raster float)
}.

(** ** Image boundaries *)

(** The dictionary with the keys ['south_bound'], ['north_bound'],
    ['east_bound'] and ['west_bound'], in that order. *)
Record ImgBounds := {
  south_bound : list Z;
  north_bound : list Z;
  east_bound : list Z;
  west_bound : list Z
}.

(** The tuples the loops draw from the four lists, zipped in key order;
    the shortest list decides the count. *)
Fixpoint zip4 (s n e w : list Z) : list (Z * Z * Z * Z) :=
  match s, n, e, w with
  | s0 :: s', n0 :: n', e0 :: e', w0 :: w' => (s0, n0, e0, w0) :: zip4 s' n' e' w'
  | _, _, _, _ => []
  end.

Definition windows (b : ImgBounds) : list (Z * Z * Z * Z) :=
  zip4 (south_bound b) (north_bound b) (east_bound b) (west_bound b).

Module ImageBoundaries.

Record t := {
  _header : Header;
  _trailer : Trailer;
  _mda : Metadata
}.

Definition _get_hrv_img_shape (self : t) : Z * Z :=
  (hrv_number_of_lines (_mda self), hrv_number_of_columns (_mda self)).

Definition _get_visir_img_shape (self : t) : Z * Z :=
  (number_of_lines (_mda self), number_of_columns (_mda self)).

Definition _convert_visir_bound_to_hrv (bound : Z) : Z := 3 * bound - 2.

Definition append_window (b : ImgBounds) (w : HRVWindow) : ImgBounds :=
  {| south_bound := south_bound b ++ [SouthLineActual w];
     north_bound := north_bound b ++ [NorthLineActual w];
     east_bound := east_bound b ++ [EastColumnActual w];
     west_bound := west_bound b ++ [WestColumnActual w] |}.

(** The loop over ['Lower'] and ['Upper'] stops after the first window
    unless the data is full disk. *)
Definition _get_hrv_actual_img_bounds (self : t) : ImgBounds :=
  let img_bounds :=
    {| south_bound := []; north_bound := []; east_bound := []; west_bound := [] |} in
  let img_bounds := append_window img_bounds (LowerActual (_trailer self)) in
  if negb (is_full_disk (_mda self)) then img_bounds
  else append_window img_bounds (UpperActual (_trailer self)).

Definition _get_selected_img_bounds (self : t) (dataset_id : DatasetId) : ImgBounds :=
  let sec15hd := sec15hd (_header self) in
  let south_bound := SouthLineSelectedRectangle sec15hd in
  let east_bound := EastColumnSelectedRectangle sec15hd in
  let '(nlines, ncolumns, south_bound, east_bound) :=
    if (name dataset_id =? "HRV")%string
    then (_get_hrv_img_shape self,
          _convert_visir_bound_to_hrv south_bound,
          _convert_visir_bound_to_hrv east_bound)
    else (_get_visir_img_shape self, south_bound, east_bound) in
  let north_bound := south_bound + nlines - 1 in
  let west_bound := east_bound + ncolumns - 1 in
  {| south_bound := [south_bound]; north_bound := [north_bound];
     east_bound := [east_bound]; west_bound := [west_bound] |}.

(** [len(set(l))] *)
Definition len_set (l : list nat) : nat := List.length (nodup Nat.eq_dec l).

(** [min(l)] of a list of lengths; [ValueError] on the empty list. *)
Definition py_min (l : list nat) : result nat :=
  match l with
  | [] => Raise ValueError
  | x :: l' => Ok (fold_left Nat.min l' x)
  end.

Definition _check_for_valid_bounds (img_bounds : ImgBounds) : result unit :=
  let len_img_bounds :=
    [List.length (south_bound img_bounds); List.length (north_bound img_bounds);
     List.length (east_bound img_bounds); List.length (west_bound img_bounds)] in
  let same_lengths := Nat.eqb (len_set len_img_bounds) 1 in
  m <- py_min len_img_bounds ;;
  let no_empty := Nat.ltb 0 m in
  if negb (same_lengths && no_empty) then Raise ValueError else Ok tt.

Definition get_img_bounds (self : t) (dataset_id : DatasetId) (is_roi : bool)
  : result ImgBounds :=
  let img_bounds :=
    if (name dataset_id =? "HRV")%string && negb is_roi
    then _get_hrv_actual_img_bounds self
    else _get_selected_img_bounds self dataset_id in
  _ <- _check_for_valid_bounds img_bounds ;;
  Ok img_bounds.

End ImageBoundaries.

(** ** The file handler *)

Record NativeMSGFileHandler := {
  calib_mode : string;
  fill_disk : bool;
  header : Header;
  mda : Metadata;
  trailer : Trailer;
  platform_id : Z
}.

(** [self.image_boundaries], built by [__init__] from the handler's header,
    trailer and metadata. *)
Definition image_boundaries (self : NativeMSGFileHandler) : ImageBoundaries.t :=
  {| ImageBoundaries._header := header self;
     ImageBoundaries._trailer := trailer self;
     ImageBoundaries._mda := mda self |}.

(** The local variables [get_area_extent] sets for the grid of a channel. *)
Record Grid := {
  grid_origin : Z;
  center_point : pynum;
  column_step : pynum;
  line_step : pynum;
  nlines_fulldisk : Z;
  ncolumns_fulldisk : Z
}.

(** The dictionary [get_area_extent] returns. *)
Record AexData := {
  area_extent : list extent;
  nlines : list Z;
  ncolumns : list Z
}.

Definition range (n : nat) : list Z := map Z.of_nat (seq 0 n).

(** [a[lo:hi]] on the lines of an array. *)
Definition py_slice {A : Type} (lo hi : Z) (l : list A) : list A :=
  let len := Z.of_nat (List.length l) in
  let clamp i := if i <? 0 then Z.max 0 (i + len) else Z.min i len in
  let lo := clamp lo in
  let hi := clamp hi in
  firstn (Z.to_nat (hi - lo)) (skipn (Z.to_nat lo) l).

(** A 16-bit count as a [float]. *)
Definition float_of_count (d : Z) : float :=
  SF2Prim (SpecFloat.binary_normalize prec emax d 0 false).

(** [xr.DataArray(data).where(data != 0).astype(np.float32)] *)
Definition where_nonzero (data : raster Z) : DataArray :=
  {| data := map (map (fun d => if d =? 0 then nan else float_of_count d)) data;
     attrs := None |}.

Section Reader.
Context {SB : SeviriBase}.

(** The decoded raster of a standard channel and of the high-resolution
    channel: [dec10216] over the memory-mapped line records, reshaped.
    Neither the decoder nor the file body is part of the model. *)
Variable _get_visir_channel :
  NativeMSGFileHandler -> DatasetId -> result (raster Z).
Variable _get_hrv_channel : NativeMSGFileHandler -> result (raster Z).

(** *** Header metadata *)

Fixpoint fill_available_channels (l : list (Z * ascii))
         (retv : list (string * bool)) : result (list (string * bool)) :=
  match l with
  | [] => Ok retv
  | (idx, char) :: l' =>
      channel <- dict_get Z.eqb (idx + 1) CHANNEL_NAMES ;;
      fill_available_channels l'
        (dict_set String.eqb channel (Ascii.eqb char "X") retv)
  end.

Definition get_available_channels (header : Header)
  : result (list (string * bool)) :=
  let chlist_str := SelectedBandIDs (sec15hd header) in
  fill_available_channels (combine (range 12) (chars chlist_str)) [].

Fixpoint select_channels (available : list (string * bool))
         (names : list string) : result (list string) :=
  match names with
  | [] => Ok []
  | i :: names' =>
      b <- dict_get String.eqb i available ;;
      rest <- select_channels available names' ;;
      Ok (if b then i :: rest else rest)
  end.

(** [_read_header]: the platform identifier and the metadata derived from
    the decoded header.  The warnings logged when the header's column
    count differs from the computed one change nothing and are left out. *)
Definition _read_header (header : Header) : result (Z * Metadata) :=
  let data15hd := data15hd header in
  let sec15hd := sec15hd header in
  available <- get_available_channels header ;;
  channel_list <- select_channels available (values CHANNEL_NAMES) ;;
  let platform_id := SatelliteId data15hd in
  satnum <- dict_get Z.eqb platform_id SATNUM ;;
  let platform_name := "Meteosat-" ++ satnum in
  let equator_radius :=
    (EquatorialRadius (GeometricProcessing data15hd) * 1000)%float in
  let north_polar_radius :=
    (NorthPolarRadius (GeometricProcessing data15hd) * 1000)%float in
  let south_polar_radius :=
    (SouthPolarRadius (GeometricProcessing data15hd) * 1000)%float in
  let polar_radius := ((north_polar_radius + south_polar_radius) * 0.5)%float in
  let ssp_lon := LongitudeOfSSP (ImageDescr data15hd) in
  let projection_parameters :=
    {| proj_a := equator_radius; proj_b := polar_radius;
       proj_h := 35785831.00%float; ssp_longitude := ssp_lon |} in
  let north := NorthLineSelectedRectangle sec15hd in
  let east := EastColumnSelectedRectangle sec15hd in
  let south := SouthLineSelectedRectangle sec15hd in
  let west := WestColumnSelectedRectangle sec15hd in
  let ncolumns := west - east + 1 in
  let nrows := north - south + 1 in
  let is_full_disk :=
    if (nrows <? VISIR_NUM_LINES) || (ncolumns <? VISIR_NUM_COLUMNS)
    then false else true in
  let modulo := ncolumns mod 4 in
  let padding := if 0 <? modulo then 4 - modulo else 0 in
  let cols_visir := ncolumns + padding in
  let cols_hrv_hdr := NumberColumnsHRV sec15hd in
  cols_hrv <- (if ncolumns <? VISIR_NUM_COLUMNS then Ok cols_hrv_hdr
               else q <- int_truediv_2 cols_hrv_hdr ;; int_of_float q) ;;
  Ok (platform_id,
      {| available_channels := available;
         channel_list := channel_list;
         platform_name := platform_name;
         projection_parameters := projection_parameters;
         is_full_disk := is_full_disk;
         number_of_lines := NumberLinesVISIR sec15hd;
         number_of_columns := cols_visir;
         hrv_number_of_lines := NumberLinesHRV sec15hd;
         hrv_number_of_columns := cols_hrv |}).

(** [__init__]: the handler of a file whose header and trailer decode to
    [hdr] and [trl]. *)
Definition init (hdr : Header) (trl : Trailer)
           (calib_mode : string) (fill_disk : bool)
  : result NativeMSGFileHandler :=
  '(platform_id, mda) <- _read_header hdr ;;
  Ok {| calib_mode := calib_mode; fill_disk := fill_disk; header := hdr;
        mda := mda; trailer := trl; platform_id := platform_id |}.

(** *** Region of interest *)

Definition is_roi (self : NativeMSGFileHandler) : bool :=
  let is_rapid_scan := ReducedScan (trailer self) in
  let nlines := number_of_lines (mda self) in
  let ncolumns := number_of_columns (mda self) in
  let north_bound := NorthLineSelectedRectangle (sec15hd (header self)) in
  let is_top3segments :=
    (ncolumns =? VISIR_NUM_COLUMNS) && (nlines =? 1392)
    && (north_bound =? VISIR_NUM_LINES) in
  negb (is_full_disk (mda self)) && negb (is_rapid_scan && is_top3segments).

(** *** Area extent *)

(** The north-south and west-east offsets of an earth model, in this
    order. *)
Definition earth_model_offsets (earth_model : Z) (dataset_id : DatasetId)
  : result (pynum * pynum) :=
  if earth_model =? 2 then
    let ns_offset := PyInt 0 in
    let we_offset := PyInt 0 in
    Ok (ns_offset, we_offset)
  else if earth_model =? 1 then
    let ns_offset := PyFloat (-0.5) in
    let we_offset := PyFloat 0.5 in
    if (name dataset_id =? "HRV")%string
    then
      let ns_offset := PyFloat (-1.5) in
      let we_offset := PyFloat 1.5 in
      Ok (ns_offset, we_offset)
    else Ok (ns_offset, we_offset)
  else Raise NotImplementedError.

Definition reference_grid (data15hd : DataHeader) (dataset_id : DatasetId)
  : result Grid :=
  if (name dataset_id =? "HRV")%string then
    let g := ReferenceGridHRV (ImageDescr data15hd) in
    half <- int_truediv_2 HRV_NUM_COLUMNS ;;
    center_point <- sub (PyFloat half) (PyInt 2) ;;
    Ok {| grid_origin := GridOrigin g;
          center_point := center_point;
          column_step := PyFloat (ColumnDirGridStep g * 1000.0)%float;
          line_step := PyFloat (LineDirGridStep g * 1000.0)%float;
          nlines_fulldisk := HRV_NUM_LINES;
          ncolumns_fulldisk := HRV_NUM_COLUMNS |}
  else
    let g := ReferenceGridVIS_IR (ImageDescr data15hd) in
    half <- int_truediv_2 VISIR_NUM_COLUMNS ;;
    Ok {| grid_origin := GridOrigin g;
          center_point := PyFloat half;
          column_step := PyFloat (ColumnDirGridStep g * 1000.0)%float;
          line_step := PyFloat (LineDirGridStep g * 1000.0)%float;
          nlines_fulldisk := VISIR_NUM_LINES;
          ncolumns_fulldisk := VISIR_NUM_COLUMNS |}.

Definition origins : list (Z * string) :=
  [(0, "NW"); (1, "SW"); (2, "SE"); (3, "NE")].

(** One turn of the loop over the windows: the bounds after the widening
    that [fill_disk] asks for, the window's size and its extent. *)
Definition window_extent (self : NativeMSGFileHandler) (g : Grid)
           (we_offset ns_offset : pynum) (w : Z * Z * Z * Z)
  : result (extent * Z * Z) :=
  let '(south_bound, north_bound, east_bound, west_bound) := w in
  let '(south_bound, north_bound, east_bound, west_bound) :=
    if fill_disk self then
      if negb (is_full_disk (mda self))
      then (1, nlines_fulldisk g, 1, ncolumns_fulldisk g)
      else (south_bound, north_bound, 1, ncolumns_fulldisk g)
    else (south_bound, north_bound, east_bound, west_bound) in
  let nlines := north_bound - south_bound + 1 in
  let ncolumns := west_bound - east_bound + 1 in
  aex <- _calculate_area_extent (center_point g)
           (PyInt north_bound) (PyInt east_bound)
           (PyInt south_bound) (PyInt west_bound)
           we_offset ns_offset (column_step g) (line_step g) ;;
  Ok (aex, nlines, ncolumns).

Definition get_area_extent (self : NativeMSGFileHandler)
           (dataset_id : DatasetId) : result AexData :=
  let data15hd := data15hd (header self) in
  let earth_model := TypeOfEarthModel (GeometricProcessing data15hd) in
  '(ns_offset, we_offset) <- earth_model_offsets earth_model dataset_id ;;
  g <- reference_grid data15hd dataset_id ;;
  _ <- (if negb (grid_origin g =? 2)
        then _ <- dict_get Z.eqb (grid_origin g) origins ;;
             Raise NotImplementedError
        else Ok tt) ;;
  img_bounds <- ImageBoundaries.get_img_bounds
                  (image_boundaries self) dataset_id (is_roi self) ;;
  rows <- mapM (window_extent self g we_offset ns_offset) (windows img_bounds) ;;
  Ok {| area_extent := map (fun r => fst (fst r)) rows;
        nlines := map (fun r => snd (fst r)) rows;
        ncolumns := map snd rows |}.

(** *** Calibration *)

Definition calibrate (self : NativeMSGFileHandler) (data : DataArray)
           (dataset_id : DatasetId) : result DataArray :=
  let data15hdr := data15hd (header self) in
  let calibration := calibration dataset_id in
  let channel := name dataset_id in
  i <- index channel (values CHANNEL_NAMES) ;;
  if (calibration =? "counts")%string then Ok data
  else
    res <- (if contains calibration
                 ["radiance"; "reflectance"; "brightness_temperature"]
            then
              if negb (upper (calib_mode self) =? "GSICS")%string
                 && negb (upper (calib_mode self) =? "NOMINAL")%string
              then Raise NotImplementedError
              else
                '(gain, offset) <-
                  (if negb (upper (calib_mode self) =? "GSICS")%string
                      || contains channel VIS_CHANNELS
                   then
                     let coeffs := Radiometric data15hdr in
                     gain <- getitem (CalSlope coeffs) i ;;
                     offset <- getitem (CalOffset coeffs) i ;;
                     Ok (gain, offset)
                   else
                     let coeffs := Radiometric data15hdr in
                     gain <- getitem (GSICSCalCoeff coeffs) i ;;
                     offset <- getitem (GSICSOffsetCount coeffs) i ;;
                     Ok (gain, (offset * gain)%float)) ;;
                res <- _convert_to_radiance data gain offset ;;
                Ok (Some res)
            else Ok None) ;;
    res <- (if (calibration =? "reflectance")%string then
              match res with
              | Some res =>
                  by_channel <- dict_get Z.eqb (platform_id self) CALIB ;;
                  consts <- dict_get String.eqb channel by_channel ;;
                  solar_irradiance <- dict_get String.eqb "F" consts ;;
                  res <- _vis_calibrate res solar_irradiance ;;
                  Ok (Some res)
              | None => Raise UnboundLocalError
              end
            else if (calibration =? "brightness_temperature")%string then
              match res with
              | Some res =>
                  cal_type <- getitem
                    (PlannedChanProcessing (ImageDescr data15hdr)) i ;;
                  res <- _ir_calibrate res channel cal_type ;;
                  Ok (Some res)
              | None => Raise UnboundLocalError
              end
            else Ok res) ;;
    match res with
    | Some res => Ok res
    | None => Raise UnboundLocalError
    end.

(** *** Padding to full disk *)

Record Padder := {
  _img_bounds : ImgBounds;
  _is_full_disk : bool;
  _final_shape : Z * Z
}.

Definition Padder_init (dataset_id : DatasetId) (img_bounds : ImgBounds)
           (is_full_disk : bool) : Padder :=
  {| _img_bounds := img_bounds;
     _is_full_disk := is_full_disk;
     _final_shape :=
       if (name dataset_id =? "HRV")%string
       then (HRV_NUM_LINES, HRV_NUM_COLUMNS)
       else (VISIR_NUM_LINES, VISIR_NUM_COLUMNS) |}.

Definition _extract_data_to_pad (self : Padder) (dataset : DataArray)
           (south_bound north_bound : Z) : raster float :=
  if _is_full_disk self
  then py_slice (south_bound - 1) north_bound (data dataset)
  else data dataset.

Definition pad_window (self : Padder) (dataset : DataArray)
           (w : Z * Z * Z * Z) : result (raster float) :=
  let '(south_bound, north_bound, east_bound, west_bound) := w in
  let nlines := north_bound - south_bound + 1 in
  let data := _extract_data_to_pad self dataset south_bound north_bound in
  pad_data_horizontally data (nlines, snd (_final_shape self))
                        east_bound west_bound.

(** [pad_data]: the windows are padded in turn and stacked; the vertical
    padding uses the bounds of the last window, and stacking an empty list
    of windows fails. *)
Definition pad_data (self : Padder) (dataset : DataArray) : result DataArray :=
  let ws := windows (_img_bounds self) in
  data_list <- mapM (pad_window self dataset) ws ;;
  match rev ws with
  | [] => Raise ValueError
  | (south_bound, north_bound, _, _) :: _ =>
      let padded_data := List.concat data_list in
      padded_data <-
        (if negb (_is_full_disk self)
         then pad_data_vertically padded_data (_final_shape self)
                                  south_bound north_bound
         else Ok padded_data) ;;
      Ok {| data := padded_data; attrs := attrs dataset |}
  end.

(** *** Datasets *)

Definition get_dataset (self : NativeMSGFileHandler)
           (dataset_id : DatasetId) (dataset_info : DatasetInfo)
  : result DataArray :=
  counts <- (if negb (contains (name dataset_id) (channel_list (mda self)))
             then Raise KeyError
             else if negb (contains (name dataset_id) ["HRV"])
             then _get_visir_channel self dataset_id
             else _get_hrv_channel self) ;;
  let xarr := where_nonzero counts in
  dataset <- calibrate self xarr dataset_id ;;
  let dataset :=
    {| data := data dataset;
       attrs := Some
         {| units := info_units dataset_info;
            wavelength := info_wavelength dataset_info;
            standard_name := info_standard_name dataset_info;
            attr_platform_name := platform_name (mda self);
            sensor := "seviri";
            orbital_parameters :=
              (ssp_longitude (projection_parameters (mda self)),
               0%float,
               proj_h (projection_parameters (mda self))) |} |} in
  if fill_disk self
     && negb (negb (name dataset_id =? "HRV")%string && is_full_disk (mda self))
  then
    img_bounds <- ImageBoundaries.get_img_bounds
                    (image_boundaries self) dataset_id (is_roi self) ;;
    let padder := Padder_init dataset_id img_bounds (is_full_disk (mda self)) in
    pad_data padder dataset
  else Ok dataset.

End Reader.

(** * The statements of the format description *)

(** The corners in pixel units, as the format description states them. *)
Definition ll_col (center east we_offset : float) : float :=
  (center - east + 0.5 + we_offset)%float.
Definition ll_line (north center ns_offset : float) : float :=
  (north - center + 0.5 + ns_offset)%float.
Definition ur_col (center west we_offset : float) : float :=
  (center - west - 0.5 + we_offset)%float.
Definition ur_line (south center ns_offset : float) : float :=
  (south - center - 0.5 + ns_offset)%float.


(** The request is for the high-resolution channel. *)
Definition is_hrv (dataset_id : DatasetId) : bool :=
  (name dataset_id =? "HRV")%string.

(** The four boundary lists have one length, and it is not zero. *)
Definition well_formed (b : ImgBounds) : Prop :=
  List.length (south_bound b) = List.length (north_bound b)
  /\ List.length (north_bound b) = List.length (east_bound b)
  /\ List.length (east_bound b) = List.length (west_bound b)
  /\ List.length (south_bound b) <> 0%nat.

(** Two mode strings are the same mode when their upper-case forms agree. *)
Definition same_mode (a b : string) : Prop := upper a = upper b.

(** A conversion keeps no-data in place: wherever the input holds NaN, so
    does every array it returns. *)
Definition nodata_kept (a b : DataArray) : Prop :=
  forall i j, cell (data a) i j = Some nan -> cell (data b) i j = Some nan.

Definition with_calib_mode (self : NativeMSGFileHandler) (mode : string)
  : NativeMSGFileHandler :=
  {| calib_mode := mode; fill_disk := fill_disk self; header := header self;
     mda := mda self; trailer := trailer self; platform_id := platform_id self |}.

(** The string holds ASCII characters only; on such text [upper] is
    Python's [str.upper]. *)
Definition ascii_text (s : string) : bool :=
  forallb (fun c => (N_of_ascii c <? 128)%N) (chars s).

(** [f] applied to what [m] returns. *)
Definition result_map {A B : Type} (f : A -> B) (m : result A) : result B :=
  match m with
  | Ok a => Ok (f a)
  | Raise e => Raise e
  end.

(** The windows of a dataset: the actual HRV windows of the trailer for
    the HRV channel of a file that is no region of interest, the selected
    rectangle otherwise. *)
Definition resolved_windows (self : NativeMSGFileHandler)
           (dataset_id : DatasetId) : list (Z * Z * Z * Z) :=
  windows
    (if is_hrv dataset_id && negb (is_roi self)
     then ImageBoundaries._get_hrv_actual_img_bounds (image_boundaries self)
     else ImageBoundaries._get_selected_img_bounds (image_boundaries self)
            dataset_id).

(** The extent of one window as the format description gives it.  With
    [fill_disk] the columns are widened to the full disk, and the lines
    too unless the file is a full disk; then [_calculate_area_extent] is
    applied with the given centre and offsets and the steps of the
    channel's reference grid, in metres. *)
Definition described_extent (self : NativeMSGFileHandler)
           (dataset_id : DatasetId)
           (center_point we_offset ns_offset : pynum) (w : Z * Z * Z * Z)
  : result extent :=
  let descr := ImageDescr (data15hd (header self)) in
  let grid :=
    if is_hrv dataset_id then ReferenceGridHRV descr
    else ReferenceGridVIS_IR descr in
  let lines := if is_hrv dataset_id then HRV_NUM_LINES else VISIR_NUM_LINES in
  let columns :=
    if is_hrv dataset_id then HRV_NUM_COLUMNS else VISIR_NUM_COLUMNS in
  let '(south, north, east, west) := w in
  let '(east, west) := if fill_disk self then (1, columns) else (east, west) in
  let '(south, north) :=
    if fill_disk self && negb (is_full_disk (mda self))
    then (1, lines) else (south, north) in
  _calculate_area_extent center_point
    (PyInt north) (PyInt east) (PyInt south) (PyInt west)
    we_offset ns_offset
    (PyFloat (ColumnDirGridStep grid * 1000.0)%float)
    (PyFloat (LineDirGridStep grid * 1000.0)%float).

(** The dataset is padded to the full disk: [fill_disk] is set and the
    file is not already a full disk of a standard channel. *)
Definition is_padded (self : NativeMSGFileHandler) (dataset_id : DatasetId)
  : bool :=
  fill_disk self
  && negb (negb (name dataset_id =? "HRV")%string && is_full_disk (mda self)).

(** * A concrete reader

    Tables and helpers standing in for [seviri_base], and the header and
    trailer of a few files, on which the model runs. *)

Module Sample.

Definition channel_names : list (Z * string) :=
  [(1, "VIS006"); (2, "VIS008"); (3, "IR_016"); (4, "IR_039");
   (5, "WV_062"); (6, "WV_073"); (7, "IR_087"); (8, "IR_097");
   (9, "IR_108"); (10, "IR_120"); (11, "IR_134"); (12, "HRV")].

Definition vis_channels : list string :=
  ["HRV"; "VIS006"; "VIS008"; "IR_016"].

Definition satnum : list (Z * string) :=
  [(321, "8"); (322, "9"); (323, "10"); (324, "11")].

Definition calib : list (Z * list (string * list (string * float))) :=
  [(323, [("HRV", [("F", 78.5%float)]); ("VIS006", [("F", 65.5%float)]);
          ("VIS008", [("F", 73.25%float)]); ("IR_016", [("F", 62.125%float)])])].

Definition pointwise (f : float -> float) (d : DataArray) : DataArray :=
  {| data := map (map f) (data d); attrs := attrs d |}.

(** The radiance of the format description: counts times gain plus
    offset. *)
Definition convert_to_radiance (d : DataArray) (gain offset : float)
  : result DataArray :=
  Ok (pointwise (fun c => c * gain + offset)%float d).

(** A reflectance proportional to the radiance over the solar irradiance. *)
Definition vis_calibrate (d : DataArray) (solar_irradiance : float)
  : result DataArray :=
  Ok (pointwise (fun r => r * 100 / solar_irradiance)%float d).

(** A stand-in for the inverse Planck conversion; conversion types other
    than 1 and 2 are refused. *)
Definition ir_calibrate (d : DataArray) (channel : string) (cal_type : Z)
  : result DataArray :=
  if (cal_type =? 1) || (cal_type =? 2)
  then Ok (pointwise (fun r => sqrt r + 200)%float d)
  else Raise NotImplementedError.

Definition padding (n : Z) : list float := repeat nan (Z.to_nat n).

(** The data sits at columns [east_bound - 1 .. west_bound - 1] of the full
    width, NaN elsewhere. *)
Definition pad_horizontally (d : raster float) (final_size : Z * Z)
           (east_bound west_bound : Z) : result (raster float) :=
  Ok (map (fun row => padding (east_bound - 1) ++ row
                        ++ padding (snd final_size - west_bound))%list d).

(** The data sits at lines [south_bound - 1 .. north_bound - 1] of the full
    height, NaN elsewhere. *)
Definition pad_vertically (d : raster float) (final_size : Z * Z)
           (south_bound north_bound : Z) : result (raster float) :=
  let line := padding (snd final_size) in
  Ok (repeat line (Z.to_nat (south_bound - 1)) ++ d
        ++ repeat line (Z.to_nat (fst final_size - north_bound)))%list.

#[export] Instance seviri_base : SeviriBase := {|
  CHANNEL_NAMES := channel_names;
  VIS_CHANNELS := vis_channels;
  SATNUM := satnum;
  CALIB := calib;
  _convert_to_radiance := convert_to_radiance;
  _vis_calibrate := vis_calibrate;
  _ir_calibrate := ir_calibrate;
  pad_data_horizontally := pad_horizontally;
  pad_data_vertically := pad_vertically
|}.

Definition coefficients : RadiometricProcessing :=
  {| CalSlope := repeat 0.03125%float 12;
     CalOffset := repeat (-1.59375)%float 12;
     GSICSCalCoeff := repeat 0.0625%float 12;
     GSICSOffsetCount := repeat (-51)%float 12 |}.

(** The radii are 6378.169 km and 6356.5838 km; the grid steps are the
    single-precision values of 3.000403165817 km and 1.000134348869 km. *)
Definition data_header (earth_model grid_origin : Z) : DataHeader :=
  {| SatelliteId := 323;
     GeometricProcessing :=
       {| TypeOfEarthModel := earth_model;
          EquatorialRadius := 0x1.8ea2b43958106p+12%float;
          NorthPolarRadius := 0x1.8d49573eab368p+12%float;
          SouthPolarRadius := 0x1.8d49573eab368p+12%float |};
     ImageDescr :=
       {| LongitudeOfSSP := 0%float;
          ReferenceGridHRV :=
            {| GridOrigin := grid_origin;
               ColumnDirGridStep := 0x1.0008cep+0%float;
               LineDirGridStep := 0x1.0008cep+0%float |};
          ReferenceGridVIS_IR :=
            {| GridOrigin := grid_origin;
               ColumnDirGridStep := 0x1.800d36p+1%float;
               LineDirGridStep := 0x1.800d36p+1%float |};
          PlannedChanProcessing := repeat 2 12 |};
     Radiometric := coefficients |}.

(** The secondary header of a file covering the selected rectangle
    [south .. north] by [east .. west] with [lines] image lines. *)
Definition secondary_header (north east south west lines : Z)
  : SecondaryProductHeader :=
  {| SelectedBandIDs := "XXXXXXXXXXXX";
     NorthLineSelectedRectangle := north;
     EastColumnSelectedRectangle := east;
     SouthLineSelectedRectangle := south;
     WestColumnSelectedRectangle := west;
     NumberColumnsVISIR := west - east + 1;
     NumberColumnsHRV := if west - east + 1 <? 3712
                         then 3 * (west - east + 1) else 11136;
     NumberLinesVISIR := lines;
     NumberLinesHRV := 3 * lines |}.

Definition file_header (earth_model : Z) (north east south west lines : Z)
  : Header :=
  {| data15hd := data_header earth_model 2;
     sec15hd := secondary_header north east south west lines |}.

Definition file_trailer (reduced_scan : bool) : Trailer :=
  {| ReducedScan := reduced_scan;
     LowerActual := {| SouthLineActual := 1; NorthLineActual := 8064;
                       EastColumnActual := 2805; WestColumnActual := 8372 |};
     UpperActual := {| SouthLineActual := 8065; NorthLineActual := 11136;
                       EastColumnActual := 1; WestColumnActual := 5568 |} |}.

(** A full-disk file. *)
Definition full_disk : Header := file_header 2 3712 1 1 3712 3712.

(** A rapid-scan file: the 1392 northmost lines, all columns. *)
Definition rapid_scan : Header := file_header 2 3712 1 2321 3712 1392.

(** Small decoded rasters standing in for the file body; some samples
    are zero. *)
Definition visir_counts (self : NativeMSGFileHandler) (dataset_id : DatasetId)
  : result (raster Z) :=
  Ok [[512; 0; 3]; [7; 1023; 0]].

Definition hrv_counts (self : NativeMSGFileHandler) : result (raster Z) :=
  Ok [[0; 100; 200]; [300; 0; 400]].

End Sample.

(** * Area definitions

    [get_area_def] hands each extent to the projection helpers.  The
    service mode table of [seviri_base], [get_area_definition] of
    [_geos_area] and the stacked area of [pyresample] lie outside the
    sources; the reader is modelled over any choice of them. *)

(** The dictionary [pdict] as [get_area_definition] receives it. *)
Record Pdict := {
  pd_a : float;
  pd_b : float;
  pd_h : float;
  pd_ssp_lon : float;
  pd_p_id : string;
  pd_a_name : string;
  pd_a_desc : string;
  pd_nlines : Z;
  pd_ncols : Z
}.

Class Geos := {
  AreaDefinition : Type;
  (** The entries ['name'] and ['desc'] of the service mode of a
      sub-satellite longitude. *)
  get_service_mode : float -> result (string * string);
  get_area_definition : Pdict -> extent -> result AreaDefinition;
  (** [StackedAreaDefinition(a, b).squeeze()] *)
  stacked_squeeze : AreaDefinition -> AreaDefinition -> result AreaDefinition
}.

Fixpoint zip3 {A B C : Type} (a : list A) (b : list B) (c : list C)
  : list (A * B * C) :=
  match a, b, c with
  | a0 :: a', b0 :: b', c0 :: c' => (a0, b0, c0) :: zip3 a' b' c'
  | _, _, _ => []
  end.

(** [pdict] when [get_area_definition] is called for a window of [nlines]
    lines and [ncolumns] columns. *)
Definition area_pdict (self : NativeMSGFileHandler) (dataset_id : DatasetId)
           (mode_name mode_desc : string) (nlines ncolumns : Z) : Pdict :=
  let '(res, p_id) :=
    if (name dataset_id =? "HRV")%string
    then ("1", "seviri_hrv") else ("3", "seviri_visir") in
  {| pd_a := proj_a (projection_parameters (mda self));
     pd_b := proj_b (projection_parameters (mda self));
     pd_h := proj_h (projection_parameters (mda self));
     pd_ssp_lon := ssp_longitude (projection_parameters (mda self));
     pd_p_id := p_id;
     pd_a_name := "msg_seviri_" ++ mode_name ++ "_" ++ res ++ "km";
     pd_a_desc := "SEVIRI " ++ mode_desc ++ " area definition with " ++ res
                  ++ " km resolution";
     pd_nlines := nlines;
     pd_ncols := ncolumns |}.

Definition get_area_def {G : Geos} (self : NativeMSGFileHandler)
           (dataset_id : DatasetId) : result AreaDefinition :=
  let ssp_lon := ssp_longitude (projection_parameters (mda self)) in
  '(mode_name, mode_desc) <- get_service_mode ssp_lon ;;
  aex_data <- get_area_extent self dataset_id ;;
  areas <- mapM (fun '(aex, nlines, ncolumns) =>
                   get_area_definition
                     (area_pdict self dataset_id mode_name mode_desc
                                 nlines ncolumns) aex)
                (zip3 (area_extent aex_data) (nlines aex_data)
                      (ncolumns aex_data)) ;;
  match areas with
  | [a0; a1] => stacked_squeeze a0 a1
  | a0 :: _ => Ok a0
  | [] => Raise IndexError
  end.

(** The flags of a band string: a channel is selected by the character X. *)
Definition selected (chlist_str : string) : list bool :=
  map (fun c => Ascii.eqb c "X") (chars chlist_str).

(** The window of the trailer's actual coverage as a boundary tuple. *)
Definition window_of (w : HRVWindow) : Z * Z * Z * Z :=
  (SouthLineActual w, NorthLineActual w, EastColumnActual w, WestColumnActual w).

Definition with_calibration (dataset_id : DatasetId) (calibration : string)
  : DatasetId :=
  {| name := name dataset_id; calibration := calibration |}.

(** The attributes every returned dataset carries. *)
Definition dataset_attrs (self : NativeMSGFileHandler)
           (dataset_info : DatasetInfo) : Attrs :=
  {| units := info_units dataset_info;
     wavelength := info_wavelength dataset_info;
     standard_name := info_standard_name dataset_info;
     attr_platform_name := platform_name (mda self);
     sensor := "seviri";
     orbital_parameters :=
       (ssp_longitude (projection_parameters (mda self)),
        0%float,
        proj_h (projection_parameters (mda self))) |}.

(** A projection library standing in for [pyresample]: an area is the list
    of the grids stacked in it, each with its identifier, size and extent. *)
Module SampleGeos.

Definition area : Type := list (string * Z * Z * extent).

#[export] Instance geos : Geos := {|
  AreaDefinition := area;
  get_service_mode := fun ssp_lon =>
    if (ssp_lon =? 0)%float then Ok ("fes", "Full Earth Scanning service")
    else Ok ("iodc", "Indian Ocean Data Coverage service");
  get_area_definition := fun pdict aex =>
    Ok [(pd_a_name pdict, pd_nlines pdict, pd_ncols pdict, aex)];
  stacked_squeeze := fun a b => Ok (a ++ b)%list
|}.

End SampleGeos.

(** * Properties *)

(** ** Area extent of a window *)

Lemma float_of_int_raises (z : Z) (e : exn) :
  float_of_int z = Raise e -> e = OverflowError.
Proof.
  unfold float_of_int.
  destruct (SpecFloat.binary_normalize prec emax z 0 false); congruence.
Qed.

Lemma to_float_raises (x : pynum) (e : exn) :
  to_float x = Raise e -> e = OverflowError.
Proof.
  destruct x as [z | f]; simpl; [apply float_of_int_raises | discriminate].
Qed.

Ltac conv_cases :=
  repeat match goal with
    | |- context [float_of_int ?z] =>
        let r := fresh "r" in
        let E := fresh "E" in
        destruct (float_of_int z) as [r | r] eqn:E;
        [ | apply float_of_int_raises in E; subst r ]; cbn
    end.

(** C1. The extent of a window is the four corner formulas, each multiplied
    by the step of its axis: for every centre, every boundary tuple, every
    offset pair and every step, [_calculate_area_extent] returns
    [(ll_col * column_step, ll_line * line_step, ur_col * column_step,
    ur_line * line_step)], where the integer bounds and offsets enter the
    formulas as floats. *)
Theorem calculate_area_extent_formula
    (center cstep lstep : float) (south north east west : Z)
    (we_offset ns_offset : pynum) :
  _calculate_area_extent (PyFloat center) (PyInt north) (PyInt east)
    (PyInt south) (PyInt west) we_offset ns_offset (PyFloat cstep) (PyFloat lstep)
  = (e <- float_of_int east ;;
     we <- to_float we_offset ;;
     n <- float_of_int north ;;
     ns <- to_float ns_offset ;;
     w <- float_of_int west ;;
     s <- float_of_int south ;;
     Ok (PyFloat (ll_col center e we * cstep),
         PyFloat (ll_line n center ns * lstep),
         PyFloat (ur_col center w we * cstep),
         PyFloat (ur_line s center ns * lstep))).
Proof.
  unfold _calculate_area_extent, ll_col, ll_line, ur_col, ur_line.
  destruct we_offset as [zw | fw], ns_offset as [zn | fn]; cbn;
    conv_cases; congruence.
Qed.

(** ** Header metadata *)

Section HeaderFacts.
Context {SB : SeviriBase}.

Lemma read_header_flag (hdr : Header) (pid : Z) (m : Metadata) :
  _read_header hdr = Ok (pid, m) ->
  is_full_disk m =
    negb ((NorthLineSelectedRectangle (sec15hd hdr)
           - SouthLineSelectedRectangle (sec15hd hdr) + 1 <? VISIR_NUM_LINES)
          || (WestColumnSelectedRectangle (sec15hd hdr)
              - EastColumnSelectedRectangle (sec15hd hdr) + 1 <? VISIR_NUM_COLUMNS)).
Proof.
  unfold _read_header, bind.
  destruct (get_available_channels hdr); [ | discriminate ].
  destruct (select_channels _ _); [ | discriminate ].
  destruct (dict_get Z.eqb _ SATNUM); [ | discriminate ].
  match goal with
  | |- match ?c with _ => _ end = _ -> _ => destruct c; [ | discriminate ]
  end.
  intros H; inversion H; subst; clear H; cbn.
  now destruct (_ || _).
Qed.

(** C2. The flag [is_full_disk] that [_read_header] derives is true
    exactly when the selected rectangle has at least 3712 lines and at
    least 3712 columns: 3712 by 3712 is full disk, and one line or one
    column less is not. *)
Theorem read_header_is_full_disk (hdr : Header) (pid : Z) (m : Metadata) :
  _read_header hdr = Ok (pid, m) ->
  let ncolumns := WestColumnSelectedRectangle (sec15hd hdr)
                  - EastColumnSelectedRectangle (sec15hd hdr) + 1 in
  let nrows := NorthLineSelectedRectangle (sec15hd hdr)
               - SouthLineSelectedRectangle (sec15hd hdr) + 1 in
  (is_full_disk m = true <-> nrows >= 3712 /\ ncolumns >= 3712)
  /\ (nrows = 3712 -> ncolumns = 3712 -> is_full_disk m = true)
  /\ (nrows = 3712 - 1 -> is_full_disk m = false)
  /\ (ncolumns = 3712 - 1 -> is_full_disk m = false).
Proof.
  intros H ncolumns nrows.
  rewrite (read_header_flag hdr pid m H).
  fold ncolumns nrows. unfold VISIR_NUM_LINES, VISIR_NUM_COLUMNS.
  destruct (Z.ltb_spec nrows 3712), (Z.ltb_spec ncolumns 3712); cbn;
    repeat split; intros; try lia; try reflexivity; try discriminate;
    intuition lia.
Qed.

End HeaderFacts.

(** The full-disk sample file is read, and its flag is set. *)
Lemma read_header_is_full_disk_witness :
  exists pid m,
    _read_header (SB := Sample.seviri_base) Sample.full_disk = Ok (pid, m)
    /\ is_full_disk m = true.
Proof.
  eexists. eexists. split.
  - vm_compute. reflexivity.
  - apply (read_header_is_full_disk (SB := Sample.seviri_base) Sample.full_disk 323).
    + vm_compute. reflexivity.
    + reflexivity.
    + reflexivity.
Defined.

(** One line less than the full disk, then one column less. *)
Example read_header_one_line_less :
  exists pid m,
    _read_header (SB := Sample.seviri_base)
      (Sample.file_header 2 3712 1 2 3712 3711) = Ok (pid, m)
    /\ is_full_disk m = false.
Proof.
  eexists. eexists.
  split; [ vm_compute; reflexivity | ]. vm_compute; reflexivity.
Qed.

Example read_header_one_column_less :
  exists pid m,
    _read_header (SB := Sample.seviri_base)
      (Sample.file_header 2 3712 2 1 3712 3712) = Ok (pid, m)
    /\ is_full_disk m = false /\ number_of_columns m = 3712.
Proof.
  eexists. eexists.
  split; [ vm_compute; reflexivity | ]. split; vm_compute; reflexivity.
Qed.

(** ** Region of interest *)

(** C3, as stated, fails on a full-disk file: its trailer has the
    reduced-scan flag set, it has 3712 columns and its north bound is 3712,
    and only the line count differs from 1392; yet it is not a region of
    interest. *)
Lemma is_roi_single_change_counterexample :
  exists self,
    init (SB := Sample.seviri_base) Sample.full_disk (Sample.file_trailer true)
         "nominal" false = Ok self
    /\ ReducedScan (trailer self) = true
    /\ number_of_columns (mda self) = 3712
    /\ number_of_lines (mda self) <> 1392
    /\ NorthLineSelectedRectangle (sec15hd (header self)) = 3712
    /\ is_roi self = false.
Proof.
  eexists. split; [ vm_compute; reflexivity | ].
  repeat split; vm_compute; congruence.
Qed.

(** C3, amended. [is_roi] holds exactly when the data is not full disk and
    it is not the case that the reduced-scan flag is set with 3712 columns,
    1392 lines and the north bound at 3712.  With all four the file is not
    a region of interest; when the data is not full disk, a file that
    misses any of the four is one. *)
Theorem is_roi_spec (self : NativeMSGFileHandler) :
  let rs := ReducedScan (trailer self) in
  let cols := number_of_columns (mda self) in
  let lines := number_of_lines (mda self) in
  let north := NorthLineSelectedRectangle (sec15hd (header self)) in
  (is_roi self = true <->
     is_full_disk (mda self) = false
     /\ ~ (rs = true /\ cols = 3712 /\ lines = 1392 /\ north = 3712))
  /\ (rs = true -> cols = 3712 -> lines = 1392 -> north = 3712 ->
      is_roi self = false)
  /\ (is_full_disk (mda self) = false ->
      rs = false \/ cols <> 3712 \/ lines <> 1392 \/ north <> 3712 ->
      is_roi self = true).
Proof.
  intros rs cols lines north. unfold is_roi.
  fold rs cols lines north. unfold VISIR_NUM_COLUMNS, VISIR_NUM_LINES.
  destruct (is_full_disk (mda self)), rs,
    (Z.eqb_spec cols 3712), (Z.eqb_spec lines 1392), (Z.eqb_spec north 3712);
    cbn; repeat split; intros; try reflexivity; try discriminate;
    try tauto; intuition congruence.
Qed.

(** The rapid-scan sample file, flag set, is not a region of interest. *)
Lemma is_roi_spec_witness :
  exists self,
    init (SB := Sample.seviri_base) Sample.rapid_scan (Sample.file_trailer true)
         "nominal" false = Ok self
    /\ is_full_disk (mda self) = false
    /\ is_roi self = false.
Proof.
  eexists. split; [ vm_compute; reflexivity | ].
  split; [ reflexivity | ].
  apply is_roi_spec; reflexivity.
Defined.

(** The same file without the flag, and a flagged file of 1391 lines, are
    regions of interest. *)
Example is_roi_without_flag :
  exists self,
    init (SB := Sample.seviri_base) Sample.rapid_scan (Sample.file_trailer false)
         "nominal" false = Ok self
    /\ is_roi self = true.
Proof.
  eexists. split; [ vm_compute; reflexivity | ]. vm_compute; reflexivity.
Qed.

Example is_roi_one_line_less :
  exists self,
    init (SB := Sample.seviri_base)
         (Sample.file_header 2 3712 1 2322 3712 1391) (Sample.file_trailer true)
         "nominal" false = Ok self
    /\ is_roi self = true.
Proof.
  eexists. split; [ vm_compute; reflexivity | ]. vm_compute; reflexivity.
Qed.

(** ** Earth model and reference grid *)

Lemma get_area_extent_unrecognised (self : NativeMSGFileHandler)
      (dataset_id : DatasetId) :
  earth_model_offsets
    (TypeOfEarthModel (GeometricProcessing (data15hd (header self))))
    dataset_id = Raise NotImplementedError ->
  get_area_extent self dataset_id = Raise NotImplementedError.
Proof. unfold get_area_extent. intros ->. reflexivity. Qed.

(** The extents [get_area_extent] returns are those of the windows, each
    computed with the offsets of the earth model and the centre and steps
    of the grid. *)
Lemma get_area_extent_windows (self : NativeMSGFileHandler)
      (dataset_id : DatasetId) (ns_offset we_offset : pynum) (g : Grid)
      (img_bounds : ImgBounds) :
  earth_model_offsets
    (TypeOfEarthModel (GeometricProcessing (data15hd (header self))))
    dataset_id = Ok (ns_offset, we_offset) ->
  reference_grid (data15hd (header self)) dataset_id = Ok g ->
  grid_origin g = 2 ->
  ImageBoundaries.get_img_bounds (image_boundaries self) dataset_id (is_roi self)
    = Ok img_bounds ->
  get_area_extent self dataset_id
  = (rows <- mapM (window_extent self g we_offset ns_offset) (windows img_bounds) ;;
     Ok {| area_extent := map (fun r => fst (fst r)) rows;
           nlines := map (fun r => snd (fst r)) rows;
           ncolumns := map snd rows |}).
Proof.
  intros Ho Hg Hor Hb. unfold get_area_extent.
  rewrite Ho; cbn. rewrite Hg; cbn. rewrite Hor; cbn. rewrite Hb; cbn.
  reflexivity.
Qed.

(** The full-disk sample file: the extent of a standard channel and the two
    windows of the HRV channel. *)
Example full_disk_extent_visir :
  exists self,
    init (SB := Sample.seviri_base) Sample.full_disk (Sample.file_trailer false)
         "nominal" false = Ok self
    /\ get_area_extent self {| name := "VIS006"; calibration := "radiance" |}
       = Ok {| area_extent :=
                 [(PyFloat 5567248.0741739273, PyFloat 5570248.4773397446,
                   PyFloat (-5570248.4773397446), PyFloat (-5567248.0741739273))%float];
               nlines := [3712];
               ncolumns := [3712] |}.
Proof.
  eexists. split; [ vm_compute; reflexivity | ]. vm_compute; reflexivity.
Qed.

Example full_disk_extent_hrv :
  exists self,
    init (SB := Sample.seviri_base) Sample.full_disk (Sample.file_trailer false)
         "nominal" false = Ok self
    /\ get_area_extent self {| name := "HRV"; calibration := "radiance" |}
       = Ok {| area_extent :=
                 [(PyFloat 2761871.0044026375, PyFloat 2498835.6706500053,
                   PyFloat (-2806877.050101757), PyFloat (-5566247.7186322212));
                  (PyFloat 5566247.7186322212, PyFloat 5571248.3903765678,
                   PyFloat (-2500.3358721733093), PyFloat 2498835.6706500053)]%float;
               nlines := [8064; 3072];
               ncolumns := [5568; 5568] |}.
Proof.
  eexists. split; [ vm_compute; reflexivity | ]. vm_compute; reflexivity.
Qed.

(** With earth model 1 the extent of the full disk is symmetric. *)
Example full_disk_extent_earth_model_1 :
  exists self,
    init (SB := Sample.seviri_base) (Sample.file_header 1 3712 1 1 3712 3712)
         (Sample.file_trailer false) "nominal" false = Ok self
    /\ get_area_extent self {| name := "VIS006"; calibration := "radiance" |}
       = Ok {| area_extent :=
                 [(PyFloat 5568748.2757568359, PyFloat 5568748.2757568359,
                   PyFloat (-5568748.2757568359), PyFloat (-5568748.2757568359))%float];
               nlines := [3712];
               ncolumns := [3712] |}.
Proof.
  eexists. split; [ vm_compute; reflexivity | ]. vm_compute; reflexivity.
Qed.

(** ** Image boundaries *)

Lemma len_set_one (l : list nat) :
  ImageBoundaries.len_set l = 1%nat <-> exists x, In x l /\ Forall (eq x) l.
Proof.
  unfold ImageBoundaries.len_set. split.
  - intros H.
    destruct (nodup Nat.eq_dec l) as [ | x [ | y r ] ] eqn:E; try discriminate.
    exists x. split.
    + apply (nodup_In Nat.eq_dec). rewrite E. now left.
    + apply Forall_forall. intros y Hy.
      apply (nodup_In Nat.eq_dec) in Hy. rewrite E in Hy.
      destruct Hy as [ -> | [] ]. reflexivity.
  - intros [x [Hin Hall]].
    pose proof (NoDup_nodup Nat.eq_dec l) as Hnd.
    assert (Hx : forall y, In y (nodup Nat.eq_dec l) -> y = x).
    { intros y Hy. apply nodup_In in Hy.
      rewrite Forall_forall in Hall. symmetry. now apply Hall. }
    apply (nodup_In Nat.eq_dec) in Hin.
    destruct (nodup Nat.eq_dec l) as [ | a [ | b r ] ]; [ contradiction | reflexivity | ].
    exfalso. inversion Hnd as [ | ? ? Hnotin _ ]; subst.
    apply Hnotin. left.
    rewrite (Hx a) by now left. rewrite (Hx b) by (right; now left).
    reflexivity.
Qed.

Lemma lengths_agree (a b c d : nat) :
  Nat.eqb (ImageBoundaries.len_set [a; b; c; d]) 1
  && Nat.ltb 0 (fold_left Nat.min [b; c; d] a) = true
  <-> a = b /\ b = c /\ c = d /\ a <> 0%nat.
Proof.
  rewrite andb_true_iff, Nat.eqb_eq, Nat.ltb_lt, len_set_one.
  change (fold_left Nat.min [b; c; d] a)
    with (Nat.min (Nat.min (Nat.min a b) c) d).
  split.
  - intros [[x [_ Hall]] Hmin].
    inversion Hall as [ | ? ? Ha Hall1 ]; subst.
    inversion Hall1 as [ | ? ? Hb Hall2 ]; subst.
    inversion Hall2 as [ | ? ? Hc Hall3 ]; subst.
    inversion Hall3 as [ | ? ? Hd _ ]; subst.
    lia.
  - intros (-> & -> & -> & Hd). split; [ | lia ].
    exists d. split; [ now left | repeat constructor ].
Qed.

Lemma check_for_valid_bounds_ok (b : ImgBounds) :
  ImageBoundaries._check_for_valid_bounds b = Ok tt <-> well_formed b.
Proof.
  unfold ImageBoundaries._check_for_valid_bounds, ImageBoundaries.py_min,
    bind, well_formed.
  rewrite <- lengths_agree.
  destruct (_ && _); cbn; intuition congruence.
Qed.

Lemma check_for_valid_bounds_raises (b : ImgBounds) (e : exn) :
  ImageBoundaries._check_for_valid_bounds b = Raise e -> e = ValueError.
Proof.
  unfold ImageBoundaries._check_for_valid_bounds, ImageBoundaries.py_min, bind.
  destruct (negb _); congruence.
Qed.

(** C7. After resolution the four boundary lists must have one non-zero
    length: [_check_for_valid_bounds] accepts exactly such bounds and raises
    [ValueError] on all others, and [get_img_bounds] returns the resolved
    bounds unchanged when they pass and raises [ValueError] when they do
    not. *)
Theorem check_for_valid_bounds_spec
        (self : ImageBoundaries.t) (dataset_id : DatasetId) (is_roi : bool)
        (img_bounds : ImgBounds) :
  let resolved :=
    if is_hrv dataset_id && negb is_roi
    then ImageBoundaries._get_hrv_actual_img_bounds self
    else ImageBoundaries._get_selected_img_bounds self dataset_id in
  (well_formed img_bounds ->
   ImageBoundaries._check_for_valid_bounds img_bounds = Ok tt)
  /\ (~ well_formed img_bounds ->
      ImageBoundaries._check_for_valid_bounds img_bounds = Raise ValueError)
  /\ (well_formed resolved ->
      ImageBoundaries.get_img_bounds self dataset_id is_roi = Ok resolved)
  /\ (~ well_formed resolved ->
      ImageBoundaries.get_img_bounds self dataset_id is_roi = Raise ValueError).
Proof.
  intros resolved.
  assert (Hbad : forall b, ~ well_formed b ->
                 ImageBoundaries._check_for_valid_bounds b = Raise ValueError).
  { intros b Hb.
    destruct (ImageBoundaries._check_for_valid_bounds b) as [[] | e] eqn:E.
    - apply check_for_valid_bounds_ok in E. contradiction.
    - apply check_for_valid_bounds_raises in E. now subst. }
  split; [ apply check_for_valid_bounds_ok | ].
  split; [ apply Hbad | ].
  unfold ImageBoundaries.get_img_bounds. fold (is_hrv dataset_id). fold resolved.
  split; intros H.
  - apply check_for_valid_bounds_ok in H. rewrite H. reflexivity.
  - rewrite (Hbad _ H). reflexivity.
Qed.

(** Two windows of equal count pass the check; a missing west bound does
    not. *)
Lemma check_for_valid_bounds_spec_witness :
  ImageBoundaries._check_for_valid_bounds
    {| south_bound := [1; 8065]; north_bound := [8064; 11136];
       east_bound := [2805; 1]; west_bound := [8372; 5568] |} = Ok tt
  /\ ImageBoundaries._check_for_valid_bounds
       {| south_bound := [1; 8065]; north_bound := [8064; 11136];
          east_bound := [2805; 1]; west_bound := [8372] |} = Raise ValueError.
Proof.
  pose (ib := {| ImageBoundaries._header := Sample.full_disk;
                 ImageBoundaries._trailer := Sample.file_trailer false;
                 ImageBoundaries._mda :=
                   {| available_channels := []; channel_list := [];
                      platform_name := "";
                      projection_parameters :=
                        {| proj_a := 0; proj_b := 0; proj_h := 0;
                           ssp_longitude := 0 |};
                      is_full_disk := true; number_of_lines := 3712;
                      number_of_columns := 3712; hrv_number_of_lines := 11136;
                      hrv_number_of_columns := 5568 |} |}).
  pose (ds := {| name := "HRV"; calibration := "counts" |}).
  split.
  - apply (check_for_valid_bounds_spec ib ds false). cbv. repeat split; lia.
  - apply (check_for_valid_bounds_spec ib ds false). cbv. intros (_ & _ & H & _).
    discriminate H.
Defined.

Example check_for_valid_bounds_empty :
  ImageBoundaries._check_for_valid_bounds
    {| south_bound := []; north_bound := []; east_bound := []; west_bound := [] |}
  = Raise ValueError.
Proof. reflexivity. Qed.

(** The bounds either resolution path builds are well formed, so
    [get_img_bounds] always returns them. *)
Lemma get_img_bounds_returns (self : ImageBoundaries.t)
      (dataset_id : DatasetId) (is_roi : bool) :
  ImageBoundaries.get_img_bounds self dataset_id is_roi
  = Ok (if is_hrv dataset_id && negb is_roi
        then ImageBoundaries._get_hrv_actual_img_bounds self
        else ImageBoundaries._get_selected_img_bounds self dataset_id).
Proof.
  unfold ImageBoundaries.get_img_bounds. fold (is_hrv dataset_id).
  match goal with
  | |- bind (ImageBoundaries._check_for_valid_bounds ?b) _ = _ =>
      assert (H : well_formed b); [ | apply check_for_valid_bounds_ok in H;
                                      rewrite H; reflexivity ]
  end.
  unfold ImageBoundaries._get_hrv_actual_img_bounds,
    ImageBoundaries._get_selected_img_bounds, well_formed.
  destruct (is_hrv dataset_id && negb is_roi).
  - destruct (negb (is_full_disk _)); cbn; repeat split; lia.
  - destruct (name dataset_id =? "HRV")%string; cbn; repeat split; lia.
Qed.

(** C9. For the HRV channel the selected rectangle is taken to the
    high-resolution grid: south and east become [3 * bound - 2], and north
    and west are south plus the HRV line count minus one and east plus the
    HRV column count minus one; [get_img_bounds] returns these bounds in
    the region-of-interest case. *)
Theorem selected_img_bounds_hrv (self : ImageBoundaries.t)
        (dataset_id : DatasetId) :
  name dataset_id = "HRV" ->
  let sec15hd := sec15hd (ImageBoundaries._header self) in
  let south := 3 * SouthLineSelectedRectangle sec15hd - 2 in
  let east := 3 * EastColumnSelectedRectangle sec15hd - 2 in
  let bounds :=
    {| south_bound := [south];
       north_bound := [south + hrv_number_of_lines (ImageBoundaries._mda self) - 1];
       east_bound := [east];
       west_bound := [east + hrv_number_of_columns (ImageBoundaries._mda self) - 1] |} in
  ImageBoundaries._convert_visir_bound_to_hrv
    (SouthLineSelectedRectangle sec15hd) = south
  /\ ImageBoundaries._convert_visir_bound_to_hrv
       (EastColumnSelectedRectangle sec15hd) = east
  /\ ImageBoundaries._get_selected_img_bounds self dataset_id = bounds
  /\ ImageBoundaries.get_img_bounds self dataset_id true = Ok bounds.
Proof.
  intros Hname sec south east bounds.
  assert (Hsel : ImageBoundaries._get_selected_img_bounds self dataset_id = bounds).
  { unfold ImageBoundaries._get_selected_img_bounds. rewrite Hname. reflexivity. }
  repeat split; try reflexivity; try exact Hsel.
  rewrite get_img_bounds_returns, andb_false_r, Hsel. reflexivity.
Qed.

(** A region of interest whose rectangle starts at line 1001 and column
    501 of the standard grid. *)
Lemma selected_img_bounds_hrv_witness :
  ImageBoundaries.get_img_bounds
    {| ImageBoundaries._header := Sample.file_header 2 1400 501 1001 900 400;
       ImageBoundaries._trailer := Sample.file_trailer false;
       ImageBoundaries._mda :=
         {| available_channels := []; channel_list := ["HRV"];
            platform_name := "Meteosat-10";
            projection_parameters :=
              {| proj_a := 0; proj_b := 0; proj_h := 0; ssp_longitude := 0 |};
            is_full_disk := false; number_of_lines := 400;
            number_of_columns := 400; hrv_number_of_lines := 1200;
            hrv_number_of_columns := 1200 |} |}
    {| name := "HRV"; calibration := "counts" |} true
  = Ok {| south_bound := [3001]; north_bound := [4200];
          east_bound := [1501]; west_bound := [2700] |}.
Proof.
  exact (proj2 (proj2 (proj2
           (selected_img_bounds_hrv
              {| ImageBoundaries._header := Sample.file_header 2 1400 501 1001 900 400;
                 ImageBoundaries._trailer := Sample.file_trailer false;
                 ImageBoundaries._mda := _ |}
              {| name := "HRV"; calibration := "counts" |} eq_refl)))).
Defined.

(** ** Calibration *)

Section CalibrationFacts.
Context {SB : SeviriBase}.

Lemma index_contains (x : string) (l : list string) :
  contains x l = true -> exists i, index x l = Ok i.
Proof.
  unfold contains. induction l as [ | y l IH ]; cbn; [ discriminate | ].
  destruct (x =? y)%string; cbn; [ now exists 0 | ].
  intros H. destruct (IH H) as [i ->]. now exists (i + 1).
Qed.

Lemma index_missing (x : string) (l : list string) :
  contains x l = false -> index x l = Raise ValueError.
Proof.
  unfold contains. induction l as [ | y l IH ]; cbn; [ reflexivity | ].
  destruct (x =? y)%string; cbn; [ discriminate | ].
  intros H. now rewrite (IH H).
Qed.


(** C8, amended. With a mode string of ASCII characters that is neither
    ['nominal'] nor ['gsics'], whatever the case of its letters, a request
    for radiance, reflectance or brightness temperature raises:
    [NotImplementedError] for a channel of the channel table, [ValueError]
    from the channel lookup for any other.  A request for counts never
    reads the mode: for a channel of the channel table it returns the
    data unchanged, for any other it raises [ValueError]. *)
Theorem unknown_mode_raises (self : NativeMSGFileHandler)
        (data : DataArray) (dataset_id : DatasetId) :
  let known := contains (name dataset_id) (values CHANNEL_NAMES) in
  (ascii_text (calib_mode self) = true ->
   ~ same_mode (calib_mode self) "nominal" ->
   ~ same_mode (calib_mode self) "gsics" ->
   contains (calibration dataset_id)
     ["radiance"; "reflectance"; "brightness_temperature"] = true ->
   calibrate self data dataset_id
   = Raise (if known then NotImplementedError else ValueError))
  /\ (calibration dataset_id = "counts" ->
      calibrate self data dataset_id
      = if known then Ok data else Raise ValueError).
Proof.
  intros known. unfold calibrate. split.
  - intros _ Hn Hg Hcal.
    destruct known eqn:K; unfold known in K.
    + destruct (index_contains _ _ K) as [i ->]. cbn [bind].
      destruct (String.eqb_spec (calibration dataset_id) "counts") as [E | _].
      { rewrite E in Hcal. discriminate Hcal. }
      rewrite Hcal.
      destruct (String.eqb_spec (upper (calib_mode self)) "GSICS") as [E | _];
        [ now elim Hg | ].
      destruct (String.eqb_spec (upper (calib_mode self)) "NOMINAL") as [E | _];
        [ now elim Hn | ].
      reflexivity.
    + now rewrite (index_missing _ _ K).
  - intros Hc. destruct known eqn:K; unfold known in K.
    + destruct (index_contains _ _ K) as [i ->]. cbn [bind]. now rewrite Hc.
    + now rewrite (index_missing _ _ K).
Qed.

End CalibrationFacts.


Example nominal_radiance_vis006 :
  exists self,
    init (SB := Sample.seviri_base) Sample.full_disk (Sample.file_trailer false)
         "gsics" false = Ok self
    /\ calibrate (SB := Sample.seviri_base) self (where_nonzero [[512; 0]])
         {| name := "VIS006"; calibration := "radiance" |}
       = Ok {| data := [[14.40625; nan]]%float; attrs := None |}
    /\ calibrate (SB := Sample.seviri_base) self (where_nonzero [[512; 0]])
         {| name := "IR_108"; calibration := "radiance" |}
       = Ok {| data := [[28.8125; nan]]%float; attrs := None |}.
Proof.
  eexists. split; [ vm_compute; reflexivity | ].
  split; vm_compute; reflexivity.
Qed.

(** C8, as stated, fails for a request for counts: with the mode ['bogus']
    the data comes back and nothing is raised. *)
Lemma unknown_mode_counts_counterexample :
  exists self,
    init (SB := Sample.seviri_base) Sample.full_disk (Sample.file_trailer false)
         "bogus" false = Ok self
    /\ ~ same_mode (calib_mode self) "nominal"
    /\ ~ same_mode (calib_mode self) "gsics"
    /\ calibrate (SB := Sample.seviri_base) self (where_nonzero [[512; 0]])
         {| name := "VIS006"; calibration := "counts" |}
       = Ok (where_nonzero [[512; 0]]).
Proof.
  eexists. split; [ vm_compute; reflexivity | ].
  split; [ | split ]; try (vm_compute; congruence).
Qed.

(** The same file and mode: radiances of a channel of the table raise,
    counts of a channel outside it raise too. *)
Lemma unknown_mode_raises_witness :
  exists self,
    init (SB := Sample.seviri_base) Sample.full_disk (Sample.file_trailer false)
         "bogus" false = Ok self
    /\ calibrate (SB := Sample.seviri_base) self (where_nonzero [[512; 0]])
         {| name := "VIS006"; calibration := "radiance" |}
       = Raise NotImplementedError
    /\ calibrate (SB := Sample.seviri_base) self (where_nonzero [[512; 0]])
         {| name := "VIS007"; calibration := "counts" |}
       = Raise ValueError.
Proof.
  eexists. split; [ vm_compute; reflexivity | ]. split.
  - apply (proj1 (unknown_mode_raises (SB := Sample.seviri_base) _
                    (where_nonzero [[512; 0]])
                    {| name := "VIS006"; calibration := "radiance" |}));
      vm_compute; congruence.
  - apply (proj2 (unknown_mode_raises (SB := Sample.seviri_base) _
                    (where_nonzero [[512; 0]])
                    {| name := "VIS007"; calibration := "counts" |})).
    reflexivity.
Defined.

(** ** Zero counts are no data *)

Lemma cell_map {A B : Type} (f : A -> B) (r : raster A) (i j : nat) :
  cell (map (map f) r) i j = option_map f (cell r i j).
Proof.
  unfold cell. rewrite nth_error_map.
  destruct (nth_error r i) as [row | ]; cbn; [ apply nth_error_map | reflexivity ].
Qed.

Lemma where_nonzero_zero (counts : raster Z) (i j : nat) :
  cell counts i j = Some 0 -> cell (data (where_nonzero counts)) i j = Some nan.
Proof.
  intros H. unfold where_nonzero; cbn [data]. rewrite cell_map, H. reflexivity.
Qed.

Lemma nodata_kept_refl (a : DataArray) : nodata_kept a a.
Proof. intros i j H. exact H. Qed.

Lemma nodata_kept_trans (a b c : DataArray) :
  nodata_kept a b -> nodata_kept b c -> nodata_kept a c.
Proof. intros Hab Hbc i j H. apply Hbc, Hab, H. Qed.

Ltac unfold_ok :=
  repeat match goal with
    | H : Raise _ = Ok _ |- _ => discriminate H
    | H : Ok _ = Ok _ |- _ => injection H as H; try subst
    | H : bind ?m _ = Ok _ |- _ =>
        let E := fresh "E" in
        destruct m eqn:E; cbn [bind] in H; [ | discriminate H ]
    | H : (if ?b then _ else _) = Ok _ |- _ => destruct b eqn:?
    | H : match ?x with _ => _ end = Ok _ |- _ => destruct x eqn:?
    end.

Section DatasetFacts.
Context {SB : SeviriBase}.
Variable _get_visir_channel :
  NativeMSGFileHandler -> DatasetId -> result (raster Z).
Variable _get_hrv_channel : NativeMSGFileHandler -> result (raster Z).

(** The conversions of [seviri_base] work sample by sample and keep
    no-data in place. *)
Hypothesis radiance_keeps_nodata :
  forall d gain offset r,
    _convert_to_radiance d gain offset = Ok r -> nodata_kept d r.
Hypothesis vis_keeps_nodata :
  forall d solar_irradiance r,
    _vis_calibrate d solar_irradiance = Ok r -> nodata_kept d r.
Hypothesis ir_keeps_nodata :
  forall d channel cal_type r,
    _ir_calibrate d channel cal_type = Ok r -> nodata_kept d r.

Lemma calibrate_keeps_nodata (self : NativeMSGFileHandler)
      (d r : DataArray) (dataset_id : DatasetId) :
  calibrate self d dataset_id = Ok r -> nodata_kept d r.
Proof.
  intros H. unfold calibrate in H. unfold_ok;
    eauto using nodata_kept_refl, nodata_kept_trans.
Qed.

End DatasetFacts.

(** NaN absorbs the arithmetic of the sample conversions. *)
Lemma nan_mul (y : float) : (nan * y)%float = nan.
Proof. apply Prim2SF_inj. rewrite mul_spec. reflexivity. Qed.

Lemma nan_add (y : float) : (nan + y)%float = nan.
Proof. apply Prim2SF_inj. rewrite add_spec. reflexivity. Qed.

Lemma nan_div (y : float) : (nan / y)%float = nan.
Proof. apply Prim2SF_inj. rewrite div_spec. reflexivity. Qed.

Lemma pointwise_keeps_nodata (f : float -> float) (d : DataArray) :
  f nan = nan -> nodata_kept d (Sample.pointwise f d).
Proof.
  intros Hf i j H. unfold Sample.pointwise; cbn [data].
  rewrite cell_map, H. cbn. now rewrite Hf.
Qed.

Lemma sample_radiance_keeps_nodata (d : DataArray) (gain offset : float)
      (r : DataArray) :
  Sample.convert_to_radiance d gain offset = Ok r -> nodata_kept d r.
Proof.
  intros [= <-]. apply pointwise_keeps_nodata. now rewrite nan_mul, nan_add.
Qed.

Lemma sample_vis_keeps_nodata (d : DataArray) (solar_irradiance : float)
      (r : DataArray) :
  Sample.vis_calibrate d solar_irradiance = Ok r -> nodata_kept d r.
Proof.
  intros [= <-]. apply pointwise_keeps_nodata. now rewrite nan_mul, nan_div.
Qed.

Lemma sample_ir_keeps_nodata (d : DataArray) (channel : string) (cal_type : Z)
      (r : DataArray) :
  Sample.ir_calibrate d channel cal_type = Ok r -> nodata_kept d r.
Proof.
  unfold Sample.ir_calibrate. destruct (_ || _); [ | discriminate ].
  intros [= <-]. apply pointwise_keeps_nodata.
  change (sqrt nan) with nan. apply nan_add.
Qed.

(** ** The Python primitives on small inputs *)

Example upper_mixed_case : upper "Gsics" = "GSICS".
Proof. reflexivity. Qed.

Example py_slice_inner : py_slice 1 3 [10; 20; 30; 40] = [20; 30].
Proof. reflexivity. Qed.

Example py_slice_negative_start : py_slice (-1) 3 [10; 20; 30; 40] = [].
Proof. reflexivity. Qed.

Example py_slice_past_end : py_slice 2 9 [10; 20; 30; 40] = [30; 40].
Proof. reflexivity. Qed.

Example int_of_float_truncates :
  int_of_float (-2784.5) = Ok (-2784) /\ int_of_float 5568 = Ok 5568.
Proof. split; reflexivity. Qed.

Example int_truediv_2_odd : int_truediv_2 11137 = Ok 5568.5%float.
Proof. reflexivity. Qed.

Example float_of_int_too_large : float_of_int (2 ^ 1024) = Raise OverflowError.
Proof. reflexivity. Qed.

Example dict_set_keeps_place :
  dict_set String.eqb "b" 5 [("a", 1); ("b", 2); ("c", 3)]
  = [("a", 1); ("b", 5); ("c", 3)].
Proof. reflexivity. Qed.

(** The rapid-scan sample file read with [fill_disk]: the extent of a
    standard channel is that of the full disk. *)
Example rapid_scan_extent_fill_disk :
  exists self,
    init (SB := Sample.seviri_base) Sample.rapid_scan (Sample.file_trailer true)
         "nominal" true = Ok self
    /\ get_area_extent self {| name := "VIS006"; calibration := "radiance" |}
       = Ok {| area_extent :=
                 [(PyFloat 5567248.0741739273, PyFloat 5570248.4773397446,
                   PyFloat (-5570248.4773397446), PyFloat (-5567248.0741739273))%float];
               nlines := [3712];
               ncolumns := [3712] |}.
Proof.
  eexists. split; [ vm_compute; reflexivity | ]. vm_compute; reflexivity.
Qed.

(** Padding a two by two window at lines 2 to 3 and columns 2 to 3 of a
    four by four grid. *)
Example pad_data_small :
  pad_data (SB := Sample.seviri_base)
    {| _img_bounds := {| south_bound := [2]; north_bound := [3];
                         east_bound := [2]; west_bound := [3] |};
       _is_full_disk := false;
       _final_shape := (4, 4) |}
    {| data := [[1; 2]; [3; 4]]%float; attrs := None |}
  = Ok {| data := [[nan; nan; nan; nan]; [nan; 1; 2; nan];
                   [nan; 3; 4; nan]; [nan; nan; nan; nan]]%float;
          attrs := None |}.
Proof. vm_compute. reflexivity. Qed.

(** * Further properties of the reader *)

(** ** Windows of an image *)

(** X1. [get_img_bounds] never raises.  It returns two windows, the lower
    and the upper one of the trailer, for the HRV channel of a full-disk
    file that is not a region of interest, the lower window alone for the
    HRV channel of other files that are no region of interest, and one
    window in every other case; the four lists have the length of the
    window list. *)
Theorem get_img_bounds_windows (self : ImageBoundaries.t)
        (dataset_id : DatasetId) (is_roi : bool) :
  exists b,
    ImageBoundaries.get_img_bounds self dataset_id is_roi = Ok b
    /\ List.length (windows b)
       = (if is_hrv dataset_id && negb is_roi
             && is_full_disk (ImageBoundaries._mda self)
          then 2 else 1)%nat
    /\ List.length (south_bound b) = List.length (windows b)
    /\ List.length (north_bound b) = List.length (windows b)
    /\ List.length (east_bound b) = List.length (windows b)
    /\ List.length (west_bound b) = List.length (windows b)
    /\ (is_hrv dataset_id && negb is_roi = true ->
        windows b
        = window_of (LowerActual (ImageBoundaries._trailer self))
          :: (if is_full_disk (ImageBoundaries._mda self)
              then [window_of (UpperActual (ImageBoundaries._trailer self))]
              else [])).
Proof.
  eexists. split; [ apply get_img_bounds_returns | ].
  unfold ImageBoundaries._get_hrv_actual_img_bounds,
    ImageBoundaries._get_selected_img_bounds, window_of.
  destruct (is_hrv dataset_id && negb is_roi); cbn [andb].
  - destruct (is_full_disk (ImageBoundaries._mda self)); cbn;
      repeat split; reflexivity.
  - destruct (name dataset_id =? "HRV")%string; cbn;
      repeat split; try reflexivity; discriminate.
Qed.

(** X2. A window resolved from the selected rectangle has the size of the
    image: north minus south plus one is the line count and west minus east
    plus one is the column count of the metadata, those of the HRV grid for
    the HRV channel and those of the standard grid otherwise; for a
    standard channel south and east are the header's. *)
Theorem selected_window_size (self : ImageBoundaries.t)
        (dataset_id : DatasetId) (is_roi : bool) :
  is_hrv dataset_id && negb is_roi = false ->
  exists south north east west,
    ImageBoundaries.get_img_bounds self dataset_id is_roi
    = Ok {| south_bound := [south]; north_bound := [north];
            east_bound := [east]; west_bound := [west] |}
    /\ north - south + 1
       = (if is_hrv dataset_id
          then hrv_number_of_lines (ImageBoundaries._mda self)
          else number_of_lines (ImageBoundaries._mda self))
    /\ west - east + 1
       = (if is_hrv dataset_id
          then hrv_number_of_columns (ImageBoundaries._mda self)
          else number_of_columns (ImageBoundaries._mda self))
    /\ (is_hrv dataset_id = false ->
        south = SouthLineSelectedRectangle
                  (sec15hd (ImageBoundaries._header self))
        /\ east = EastColumnSelectedRectangle
                    (sec15hd (ImageBoundaries._header self))).
Proof.
  intros Hsel. rewrite get_img_bounds_returns, Hsel.
  unfold ImageBoundaries._get_selected_img_bounds, is_hrv.
  destruct (name dataset_id =? "HRV")%string; cbn;
    do 4 eexists; (split; [ reflexivity | ]);
    repeat split; try lia; discriminate.
Qed.

(** The rapid-scan sample file, a standard channel: lines 2321 to 3712. *)
Lemma selected_window_size_witness :
  exists south north east west,
    ImageBoundaries.get_img_bounds
      {| ImageBoundaries._header := Sample.rapid_scan;
         ImageBoundaries._trailer := Sample.file_trailer true;
         ImageBoundaries._mda :=
           {| available_channels := []; channel_list := ["VIS006"];
              platform_name := "Meteosat-10";
              projection_parameters :=
                {| proj_a := 0; proj_b := 0; proj_h := 0; ssp_longitude := 0 |};
              is_full_disk := false; number_of_lines := 1392;
              number_of_columns := 3712; hrv_number_of_lines := 4176;
              hrv_number_of_columns := 11136 |} |}
      {| name := "VIS006"; calibration := "counts" |} false
    = Ok {| south_bound := [south]; north_bound := [north];
            east_bound := [east]; west_bound := [west] |}
    /\ north - south + 1 = 1392 /\ west - east + 1 = 3712
    /\ south = 2321 /\ east = 1.
Proof.
  destruct (selected_window_size
              {| ImageBoundaries._header := Sample.rapid_scan;
                 ImageBoundaries._trailer := Sample.file_trailer true;
                 ImageBoundaries._mda :=
                   {| available_channels := []; channel_list := ["VIS006"];
                      platform_name := "Meteosat-10";
                      projection_parameters :=
                        {| proj_a := 0; proj_b := 0; proj_h := 0;
                           ssp_longitude := 0 |};
                      is_full_disk := false; number_of_lines := 1392;
                      number_of_columns := 3712; hrv_number_of_lines := 4176;
                      hrv_number_of_columns := 11136 |} |}
              {| name := "VIS006"; calibration := "counts" |} false eq_refl)
    as (south & north & east & west & Hb & Hl & Hc & Hse).
  exists south, north, east, west.
  split; [ exact Hb | ]. split; [ exact Hl | ]. split; [ exact Hc | ].
  exact (Hse eq_refl).
Defined.

(** ** Area extents of a file *)

(** X3. Without [fill_disk], the sizes [get_area_extent] reports for a
    window resolved from the selected rectangle are the line and column
    counts of the metadata, and there is one extent. *)
Theorem get_area_extent_sizes (self : NativeMSGFileHandler)
        (dataset_id : DatasetId) (aex : AexData) :
  fill_disk self = false ->
  is_hrv dataset_id && negb (is_roi self) = false ->
  get_area_extent self dataset_id = Ok aex ->
  nlines aex = [if is_hrv dataset_id then hrv_number_of_lines (mda self)
                else number_of_lines (mda self)]
  /\ ncolumns aex = [if is_hrv dataset_id then hrv_number_of_columns (mda self)
                     else number_of_columns (mda self)]
  /\ List.length (area_extent aex) = 1%nat.
Proof.
  intros Hfill Hsel H. unfold get_area_extent in H.
  rewrite get_img_bounds_returns, Hsel in H.
  unfold ImageBoundaries._get_selected_img_bounds, window_extent in H.
  rewrite Hfill in H. fold (is_hrv dataset_id) in H.
  destruct (is_hrv dataset_id); cbn -[_calculate_area_extent] in H;
    unfold_ok; cbn; repeat split; f_equal; lia.
Qed.

(** The rapid-scan sample file: 1392 lines of 3712 columns. *)
Lemma get_area_extent_sizes_witness :
  exists self aex,
    init (SB := Sample.seviri_base) Sample.rapid_scan (Sample.file_trailer true)
         "nominal" false = Ok self
    /\ get_area_extent self {| name := "VIS006"; calibration := "radiance" |}
       = Ok aex
    /\ nlines aex = [1392] /\ ncolumns aex = [3712].
Proof.
  eexists. eexists. split; [ vm_compute; reflexivity | ].
  match goal with
  | |- ?g = Ok ?o /\ _ => assert (Hget : g = Ok o) by (vm_compute; reflexivity)
  end.
  split; [ exact Hget | ].
  pose proof (fun h1 h2 => get_area_extent_sizes _ _ _ h1 h2 Hget) as Hs.
  destruct (Hs eq_refl eq_refl) as (Hn & Hc & _).
  split; [ exact Hn | exact Hc ].
Defined.

(** X4. Read with [fill_disk], a file that is not full disk gets the extent
    and the size of the full disk, whatever its rectangle and its trailer
    say: with earth model 1 or 2 and the grid origin 2, [get_area_extent]
    returns one extent, that of lines and columns 1 to 3712 (1 to 11136 for
    the HRV channel). *)
Theorem fill_disk_extent (self : NativeMSGFileHandler) (dataset_id : DatasetId) :
  let data15hd := data15hd (header self) in
  let earth_model := TypeOfEarthModel (GeometricProcessing data15hd) in
  let hrv := is_hrv dataset_id in
  let grid := if hrv then ReferenceGridHRV (ImageDescr data15hd)
              else ReferenceGridVIS_IR (ImageDescr data15hd) in
  let center := (if hrv then 5566 else 1856)%float in
  let last := (if hrv then 11136 else 3712)%float in
  let ns := if earth_model =? 2 then 0%float
            else if hrv then (-1.5)%float else (-0.5)%float in
  let we := if earth_model =? 2 then 0%float
            else if hrv then 1.5%float else 0.5%float in
  let cstep := (ColumnDirGridStep grid * 1000)%float in
  let lstep := (LineDirGridStep grid * 1000)%float in
  fill_disk self = true ->
  is_full_disk (mda self) = false ->
  earth_model = 1 \/ earth_model = 2 ->
  GridOrigin grid = 2 ->
  get_area_extent self dataset_id
  = Ok {| area_extent :=
            [(PyFloat (ll_col center 1 we * cstep),
              PyFloat (ll_line last center ns * lstep),
              PyFloat (ur_col center last we * cstep),
              PyFloat (ur_line 1 center ns * lstep))];
          nlines := [if hrv then HRV_NUM_LINES else VISIR_NUM_LINES];
          ncolumns := [if hrv then HRV_NUM_COLUMNS else VISIR_NUM_COLUMNS] |}.
Proof.
  intros d earth_model hrv grid center last ns we cstep lstep
         Hfill Hfd Hem Hor.
  unfold get_area_extent. fold d earth_model.
  rewrite get_img_bounds_returns.
  unfold ns, we, center, last, cstep, lstep, grid, hrv in *. clear ns we center last cstep lstep.
  unfold earth_model_offsets, reference_grid, window_extent,
    ImageBoundaries._get_hrv_actual_img_bounds,
    ImageBoundaries._get_selected_img_bounds, is_hrv in *.
  cbn [image_boundaries ImageBoundaries._mda ImageBoundaries._trailer
       ImageBoundaries._header].
  rewrite Hfill, Hfd.
  destruct (name dataset_id =? "HRV")%string;
    destruct Hem as [E | E]; rewrite E;
    cbn -[_calculate_area_extent PrimFloat.mul];
    rewrite Hor; destruct (is_roi self);
    cbn -[PrimFloat.mul PrimFloat.add PrimFloat.sub]; reflexivity.
Qed.

(** The rapid-scan sample file read with [fill_disk]. *)
Lemma fill_disk_extent_witness :
  exists self,
    init (SB := Sample.seviri_base) Sample.rapid_scan (Sample.file_trailer true)
         "nominal" true = Ok self
    /\ get_area_extent self {| name := "VIS006"; calibration := "radiance" |}
       = Ok {| area_extent :=
                 [(PyFloat 5567248.0741739273, PyFloat 5570248.4773397446,
                   PyFloat (-5570248.4773397446), PyFloat (-5567248.0741739273))%float];
               nlines := [3712];
               ncolumns := [3712] |}.
Proof.
  eexists. split; [ vm_compute; reflexivity | ].
  match goal with
  | |- get_area_extent ?s ?d = _ =>
      exact (fill_disk_extent s d eq_refl eq_refl (or_intror eq_refl) eq_refl)
  end.
Defined.

Lemma reference_grid_origin (data15hd : DataHeader) (dataset_id : DatasetId) :
  exists g,
    reference_grid data15hd dataset_id = Ok g
    /\ grid_origin g
       = GridOrigin (if is_hrv dataset_id
                     then ReferenceGridHRV (ImageDescr data15hd)
                     else ReferenceGridVIS_IR (ImageDescr data15hd)).
Proof.
  unfold reference_grid, is_hrv.
  destruct (name dataset_id =? "HRV")%string; eexists; split; reflexivity.
Qed.

Lemma recognised_earth_model (earth_model : Z) (dataset_id : DatasetId) :
  earth_model = 1 \/ earth_model = 2 ->
  exists ns we, earth_model_offsets earth_model dataset_id = Ok (ns, we).
Proof.
  unfold earth_model_offsets. intros [-> | ->]; cbn;
    [ destruct (name dataset_id =? "HRV")%string | ]; eauto.
Qed.

(** X5. With a recognised earth model, a grid origin other than 2 makes
    [get_area_extent] raise: [NotImplementedError] for the origins 0, 1 and
    3, which have a corner name, and [KeyError] for any other code, raised
    while the message is put together. *)
Theorem unsupported_grid_origin (self : NativeMSGFileHandler)
        (dataset_id : DatasetId) :
  let data15hd := data15hd (header self) in
  let earth_model := TypeOfEarthModel (GeometricProcessing data15hd) in
  let grid := if is_hrv dataset_id then ReferenceGridHRV (ImageDescr data15hd)
              else ReferenceGridVIS_IR (ImageDescr data15hd) in
  earth_model = 1 \/ earth_model = 2 ->
  GridOrigin grid <> 2 ->
  get_area_extent self dataset_id
  = Raise (if (0 <=? GridOrigin grid) && (GridOrigin grid <=? 3)
           then NotImplementedError else KeyError).
Proof.
  intros d earth_model grid Hem Hor.
  unfold get_area_extent. fold d earth_model.
  destruct (recognised_earth_model _ dataset_id Hem) as (ns & we & ->).
  destruct (reference_grid_origin d dataset_id) as (g & -> & Hg).
  fold grid in Hg. cbn [bind]. rewrite Hg.
  set (o := GridOrigin grid) in *. unfold origins.
  destruct (Z.eqb_spec o 2) as [ | _ ]; [ contradiction | ].
  cbn [negb dict_get].
  destruct (Z.eqb_spec o 0) as [ -> | ]; [ reflexivity | ].
  destruct (Z.eqb_spec o 1) as [ -> | ]; [ reflexivity | ].
  destruct (Z.eqb_spec o 2) as [ | _ ]; [ contradiction | ].
  destruct (Z.eqb_spec o 3) as [ -> | ]; [ reflexivity | ].
  destruct (Z.leb_spec 0 o), (Z.leb_spec o 3); cbn; try reflexivity; lia.
Qed.

(** A file whose grids have their origin in the north-west corner, and one
    with the unknown origin code 7. *)
Lemma unsupported_grid_origin_witness :
  get_area_extent
    {| calib_mode := "nominal"; fill_disk := false;
       header := {| data15hd := Sample.data_header 2 0;
                    sec15hd := Sample.secondary_header 3712 1 1 3712 3712 |};
       mda := {| available_channels := []; channel_list := [];
                 platform_name := "Meteosat-10";
                 projection_parameters :=
                   {| proj_a := 0; proj_b := 0; proj_h := 0; ssp_longitude := 0 |};
                 is_full_disk := true; number_of_lines := 3712;
                 number_of_columns := 3712; hrv_number_of_lines := 11136;
                 hrv_number_of_columns := 5568 |};
       trailer := Sample.file_trailer false; platform_id := 323 |}
    {| name := "VIS006"; calibration := "radiance" |}
  = Raise NotImplementedError
  /\ get_area_extent
       {| calib_mode := "nominal"; fill_disk := false;
          header := {| data15hd := Sample.data_header 2 7;
                       sec15hd := Sample.secondary_header 3712 1 1 3712 3712 |};
          mda := {| available_channels := []; channel_list := [];
                    platform_name := "Meteosat-10";
                    projection_parameters :=
                      {| proj_a := 0; proj_b := 0; proj_h := 0;
                         ssp_longitude := 0 |};
                    is_full_disk := true; number_of_lines := 3712;
                    number_of_columns := 3712; hrv_number_of_lines := 11136;
                    hrv_number_of_columns := 5568 |};
          trailer := Sample.file_trailer false; platform_id := 323 |}
       {| name := "VIS006"; calibration := "radiance" |}
     = Raise KeyError.
Proof.
  split.
  - match goal with
    | |- get_area_extent ?s ?d = _ =>
        refine (unsupported_grid_origin s d (or_intror eq_refl) _)
    end.
    cbv. discriminate.
  - match goal with
    | |- get_area_extent ?s ?d = _ =>
        refine (unsupported_grid_origin s d (or_intror eq_refl) _)
    end.
    cbv. discriminate.
Defined.

(** ** Reading the header *)

Local Open Scope list_scope.

Section DictFacts.
Context {K V : Type} (eqb : K -> K -> bool).
Hypothesis eqb_eq : forall a b, eqb a b = true <-> a = b.

Lemma dict_get_missing (k : K) (d : list (K * V)) :
  ~ In k (map fst d) -> dict_get eqb k d = Raise KeyError.
Proof.
  induction d as [ | [k' v] d IH ]; cbn; [ reflexivity | ].
  intros H. destruct (eqb k k') eqn:E.
  - apply eqb_eq in E. subst. elim H. now left.
  - apply IH. intros Hin. apply H. now right.
Qed.

Lemma dict_get_raises (k : K) (d : list (K * V)) (e : exn) :
  dict_get eqb k d = Raise e -> e = KeyError /\ ~ In k (map fst d).
Proof.
  induction d as [ | [k' v] d IH ]; cbn.
  - intros [= <-]. split; [ reflexivity | tauto ].
  - destruct (eqb k k') eqn:E; [ discriminate | ].
    intros H. destruct (IH H) as [-> Hn]. split; [ reflexivity | ].
    intros [-> | Hin]; [ | contradiction ].
    assert (eqb k k = true) by now apply eqb_eq. congruence.
Qed.

Lemma dict_get_app_r (k : K) (v : V) (d : list (K * V)) :
  ~ In k (map fst d) -> dict_get eqb k (d ++ [(k, v)]) = Ok v.
Proof.
  induction d as [ | [k' v'] d IH ]; cbn.
  - intros _. now rewrite (proj2 (eqb_eq k k) eq_refl).
  - intros H. destruct (eqb k k') eqn:E.
    + apply eqb_eq in E. subst. elim H. now left.
    + apply IH. intros Hin. apply H. now right.
Qed.

Lemma dict_get_app_l (k : K) (d d' : list (K * V)) (v : V) :
  dict_get eqb k d = Ok v -> dict_get eqb k (d ++ d') = Ok v.
Proof.
  induction d as [ | [k' v'] d IH ]; cbn; [ discriminate | ].
  destruct (eqb k k'); [ trivial | exact IH ].
Qed.

Lemma dict_set_fresh (k : K) (v : V) (d : list (K * V)) :
  ~ In k (map fst d) -> dict_set eqb k v d = d ++ [(k, v)].
Proof.
  induction d as [ | [k' v'] d IH ]; cbn; [ reflexivity | ].
  intros H. destruct (eqb k k') eqn:E.
  - apply eqb_eq in E. subst. elim H. now left.
  - f_equal. apply IH. intros Hin. apply H. now right.
Qed.

(** Looking up what was just stored. *)
Lemma dict_get_set (k : K) (v : V) (d : list (K * V)) :
  dict_get eqb k (dict_set eqb k v d) = Ok v.
Proof.
  induction d as [ | [k' v'] d IH ]; cbn.
  - now rewrite (proj2 (eqb_eq k k) eq_refl).
  - destruct (eqb k k') eqn:E; cbn.
    + now rewrite (proj2 (eqb_eq k k) eq_refl).
    + now rewrite E.
Qed.

End DictFacts.

Lemma Z_eqb_eq (a b : Z) : (a =? b) = true <-> a = b.
Proof. apply Z.eqb_eq. Qed.

Lemma string_eqb_eq (a b : string) : (a =? b)%string = true <-> a = b.
Proof. apply String.eqb_eq. Qed.

Lemma map_fst_combine {A B : Type} (a : list A) (b : list B) :
  List.length a = List.length b -> map fst (combine a b) = a.
Proof.
  revert b. induction a as [ | x a IH ]; intros [ | y b ]; cbn;
    try discriminate; [ reflexivity | ].
  intros [= H]. now rewrite IH.
Qed.

Lemma map_snd_combine {A B : Type} (a : list A) (b : list B) :
  List.length a = List.length b -> map snd (combine a b) = b.
Proof.
  revert b. induction a as [ | x a IH ]; intros [ | y b ]; cbn;
    try discriminate; [ reflexivity | ].
  intros [= H]. now rewrite IH.
Qed.

Lemma combine_snoc {A B : Type} (a : list A) (b : list B) (x : A) (y : B) :
  List.length a = List.length b ->
  combine (a ++ [x]) (b ++ [y]) = (combine a b ++ [(x, y)])%list.
Proof.
  revert b. induction a as [ | x' a IH ]; intros [ | y' b ]; cbn;
    try discriminate; [ reflexivity | ].
  intros [= H]. now rewrite IH.
Qed.

Lemma dict_get_skip {V : Type} (k : string) (d d' : list (string * V)) :
  ~ In k (map fst d) ->
  dict_get String.eqb k (d ++ d') = dict_get String.eqb k d'.
Proof.
  induction d as [ | [k' v'] d IH ]; cbn; [ reflexivity | ].
  intros H. destruct (String.eqb_spec k k') as [-> | _].
  - elim H. now left.
  - apply IH. intros Hin. apply H. now right.
Qed.

Lemma combine_app {A B : Type} (a a' : list A) (b b' : list B) :
  List.length a = List.length b ->
  combine (a ++ a') (b ++ b') = combine a b ++ combine a' b'.
Proof.
  revert b. induction a as [ | x a IH ]; intros [ | y b ]; cbn;
    try discriminate; [ reflexivity | ].
  intros [= H]. now rewrite IH.
Qed.

Lemma combine_nil_r {A B : Type} (a : list A) : combine a (@nil B) = [].
Proof. now destruct a. Qed.

Lemma NoDup_app_notin {A : Type} (a b : list A) (x : A) :
  NoDup (a ++ x :: b) -> ~ In x a.
Proof.
  intros H Hin. apply NoDup_remove_2 in H. apply H.
  apply in_or_app. now left.
Qed.

(** The band character that selects a channel. *)
Lemma table_lookup (s : nat) (done rest : list string) (n : string) :
  dict_get Z.eqb (Z.of_nat (s + List.length done))
    (combine (map Z.of_nat (seq s (List.length (done ++ n :: rest))))
             (done ++ n :: rest))
  = Ok n.
Proof.
  revert s. induction done as [ | x done IH ]; intros s; cbn.
  - rewrite Nat.add_0_r, Z.eqb_refl. reflexivity.
  - destruct (Z.eqb_spec (Z.of_nat (s + S (List.length done))) (Z.of_nat s));
      [ lia | ].
    replace (s + S (List.length done))%nat with (S s + List.length done)%nat
      by lia.
    apply IH.
Qed.

Section ChannelTable.
Context {SB : SeviriBase}.
Variable names : list string.

(** The channel table numbers twelve distinct channels from 1 to 12. *)
Hypothesis table : CHANNEL_NAMES = combine (map Z.of_nat (seq 1 12)) names.
Hypothesis twelve : List.length names = 12%nat.
Hypothesis distinct : NoDup names.

Lemma channel_of_index (done rest : list string) (n : string) :
  names = done ++ n :: rest ->
  dict_get Z.eqb (Z.of_nat (List.length done) + 1) CHANNEL_NAMES = Ok n.
Proof.
  intros E. rewrite table.
  replace 12%nat with (List.length (done ++ n :: rest)) by now rewrite <- E.
  rewrite E.
  replace (Z.of_nat (List.length done) + 1)
    with (Z.of_nat (1 + List.length done)) by lia.
  apply table_lookup.
Qed.

Lemma fill_available_channels_spec (rest done : list string)
      (fl : list bool) (cs : list ascii) :
  names = done ++ rest ->
  List.length fl = List.length done ->
  fill_available_channels
    (combine (map Z.of_nat (seq (List.length done) (List.length rest))) cs)
    (combine done fl)
  = Ok (combine done fl
        ++ combine rest (map (fun c => Ascii.eqb c "X") cs)).
Proof.
  revert done fl cs. induction rest as [ | n rest IH ]; intros done fl cs E Hl.
  - cbn. now rewrite app_nil_r.
  - destruct cs as [ | c cs ].
    + cbn. now rewrite app_nil_r.
    + cbn [List.length seq map combine fill_available_channels].
      rewrite (channel_of_index done rest n E). cbn [bind].
      rewrite (dict_set_fresh String.eqb string_eqb_eq).
      2:{ rewrite map_fst_combine by congruence.
          apply (NoDup_app_notin done rest). now rewrite <- E. }
      rewrite <- combine_snoc by congruence.
      replace (S (List.length done)) with (List.length (done ++ [n]))
        by (rewrite length_app; cbn; lia).
      rewrite IH.
      * rewrite combine_snoc by congruence. now rewrite <- app_assoc.
      * now rewrite <- app_assoc.
      * rewrite !length_app. cbn. lia.
Qed.

Lemma get_available_channels_spec (hdr : Header) :
  get_available_channels hdr
  = Ok (combine names (selected (SelectedBandIDs (sec15hd hdr)))).
Proof.
  unfold get_available_channels, range, selected.
  replace 12%nat with (List.length names) by exact twelve.
  exact (fill_available_channels_spec names [] [] _ eq_refl eq_refl).
Qed.

Lemma select_channels_spec (rest done : list string) (fd fr : list bool) :
  names = done ++ rest ->
  List.length fd = List.length done ->
  (List.length rest <= List.length fr)%nat ->
  select_channels (combine names (fd ++ fr)) rest
  = Ok (map fst (filter snd (combine rest fr))).
Proof.
  revert done fd fr. induction rest as [ | n rest IH ]; intros done fd fr E Hl Hle.
  - reflexivity.
  - destruct fr as [ | f fr ]; [ cbn in Hle; lia | ].
    cbn [select_channels].
    assert (Hget : dict_get String.eqb n (combine names (fd ++ f :: fr)) = Ok f).
    { rewrite E, combine_app by congruence.
      rewrite dict_get_skip.
      - cbn. now rewrite String.eqb_refl.
      - rewrite map_fst_combine by congruence.
        apply (NoDup_app_notin done rest). now rewrite <- E. }
    rewrite Hget. cbn [bind].
    replace (fd ++ f :: fr) with ((fd ++ [f]) ++ fr) by now rewrite <- app_assoc.
    rewrite (IH (done ++ [n]) (fd ++ [f]) fr).
    + cbn. now destruct f.
    + now rewrite <- app_assoc.
    + rewrite !length_app. cbn. lia.
    + cbn in Hle. lia.
Qed.

Lemma select_channels_short (rest done : list string) (fd fr : list bool) :
  names = done ++ rest ->
  List.length fd = List.length done ->
  (List.length fr < List.length rest)%nat ->
  select_channels (combine names (fd ++ fr)) rest = Raise KeyError.
Proof.
  revert done fd fr. induction rest as [ | n rest IH ]; intros done fd fr E Hl Hlt.
  - cbn in Hlt. lia.
  - cbn [select_channels]. destruct fr as [ | f fr ].
    + rewrite app_nil_r, E.
      replace fd with (fd ++ []) by apply app_nil_r.
      rewrite combine_app, combine_nil_r, app_nil_r by congruence.
      rewrite (dict_get_missing String.eqb string_eqb_eq); [ reflexivity | ].
      rewrite map_fst_combine by congruence.
      apply (NoDup_app_notin done rest). now rewrite <- E.
    + assert (Hget : dict_get String.eqb n (combine names (fd ++ f :: fr)) = Ok f).
      { rewrite E, combine_app by congruence.
        rewrite dict_get_skip.
        - cbn. now rewrite String.eqb_refl.
        - rewrite map_fst_combine by congruence.
          apply (NoDup_app_notin done rest). now rewrite <- E. }
      rewrite Hget. cbn [bind].
      replace (fd ++ f :: fr) with ((fd ++ [f]) ++ fr) by now rewrite <- app_assoc.
      rewrite (IH (done ++ [n]) (fd ++ [f]) fr).
      * reflexivity.
      * now rewrite <- app_assoc.
      * rewrite !length_app. cbn. lia.
      * cbn in Hlt. lia.
Qed.

Lemma values_table : values CHANNEL_NAMES = names.
Proof.
  unfold values. rewrite table. apply map_snd_combine.
  now rewrite length_map, length_seq, twelve.
Qed.

End ChannelTable.

Section HeaderMore.
Context {SB : SeviriBase}.

Lemma fill_available_channels_raises (l : list (Z * ascii))
      (retv : list (string * bool)) (e : exn) :
  fill_available_channels l retv = Raise e -> e = KeyError.
Proof.
  revert retv. induction l as [ | [idx c] l IH ]; intros retv; cbn;
    [ discriminate | ].
  destruct (dict_get Z.eqb (idx + 1) CHANNEL_NAMES) as [ch | e'] eqn:E; cbn.
  - apply IH.
  - intros [= <-]. now apply (dict_get_raises Z.eqb Z_eqb_eq) in E.
Qed.

Lemma select_channels_raises (available : list (string * bool))
      (l : list string) (e : exn) :
  select_channels available l = Raise e -> e = KeyError.
Proof.
  induction l as [ | i l IH ]; cbn; [ discriminate | ].
  destruct (dict_get String.eqb i available) as [b | e'] eqn:E; cbn.
  - destruct (select_channels available l); cbn; [ discriminate | ].
    intros [= <-]. now apply IH.
  - intros [= <-]. now apply (dict_get_raises String.eqb string_eqb_eq) in E.
Qed.

(** What a successful [_read_header] went through. *)
Lemma read_header_inv (hdr : Header) (pid : Z) (m : Metadata) :
  _read_header hdr = Ok (pid, m) ->
  exists satnum,
    get_available_channels hdr = Ok (available_channels m)
    /\ select_channels (available_channels m) (values CHANNEL_NAMES)
       = Ok (channel_list m)
    /\ dict_get Z.eqb (SatelliteId (data15hd hdr)) SATNUM = Ok satnum
    /\ pid = SatelliteId (data15hd hdr)
    /\ platform_name m = ("Meteosat-" ++ satnum)%string
    /\ number_of_lines m = NumberLinesVISIR (sec15hd hdr)
    /\ hrv_number_of_lines m = NumberLinesHRV (sec15hd hdr)
    /\ number_of_columns m
       = (let ncolumns := WestColumnSelectedRectangle (sec15hd hdr)
                          - EastColumnSelectedRectangle (sec15hd hdr) + 1 in
          ncolumns + (if 0 <? ncolumns mod 4 then 4 - ncolumns mod 4 else 0)).
Proof.
  unfold _read_header, bind.
  destruct (get_available_channels hdr) as [av | ] eqn:Ea; [ | discriminate ].
  destruct (select_channels _ _) as [cl | ] eqn:Es; [ | discriminate ].
  destruct (dict_get Z.eqb _ SATNUM) as [sn | ] eqn:En; [ | discriminate ].
  match goal with
  | |- match ?c with _ => _ end = _ -> _ => destruct c; [ | discriminate ]
  end.
  intros [= <- <-]. exists sn. cbn.
  repeat split; try reflexivity; assumption.
Qed.

(** X6. The column count of the metadata is the width of the selected
    rectangle rounded up to a multiple of four: it is a multiple of four,
    at least the width and less than four above it. *)
Theorem read_header_column_padding (hdr : Header) (pid : Z) (m : Metadata) :
  _read_header hdr = Ok (pid, m) ->
  let ncolumns := WestColumnSelectedRectangle (sec15hd hdr)
                  - EastColumnSelectedRectangle (sec15hd hdr) + 1 in
  number_of_columns m mod 4 = 0
  /\ ncolumns <= number_of_columns m < ncolumns + 4.
Proof.
  intros H ncolumns.
  destruct (read_header_inv hdr pid m H) as (_ & _ & _ & _ & _ & _ & _ & _ & ->).
  cbv zeta. fold ncolumns.
  pose proof (Z.mod_pos_bound ncolumns 4 ltac:(lia)) as Hb.
  pose proof (Z.div_mod ncolumns 4 ltac:(lia)) as Hd.
  destruct (Z.ltb_spec 0 (ncolumns mod 4)).
  - split; [ | lia ].
    replace (ncolumns + (4 - ncolumns mod 4)) with ((ncolumns / 4 + 1) * 4) by lia.
    apply Z_mod_mult.
  - replace (ncolumns mod 4) with 0 in * by lia. split; [ | lia ].
    replace (ncolumns + 0) with ((ncolumns / 4) * 4) by lia.
    apply Z_mod_mult.
Qed.

(** X9. A satellite identifier that the platform table does not list makes
    [_read_header] raise [KeyError], whatever else the header holds. *)
Theorem read_header_unknown_platform (hdr : Header) :
  ~ In (SatelliteId (data15hd hdr)) (map fst SATNUM) ->
  _read_header hdr = Raise KeyError.
Proof.
  intros Hid. unfold _read_header.
  destruct (get_available_channels hdr) as [av | e] eqn:Ea; cbn [bind].
  - destruct (select_channels av (values CHANNEL_NAMES)) as [cl | e] eqn:Es;
      cbn [bind].
    + now rewrite (dict_get_missing Z.eqb Z_eqb_eq _ _ Hid).
    + now rewrite (select_channels_raises _ _ _ Es).
  - unfold get_available_channels in Ea.
    now rewrite (fill_available_channels_raises _ _ _ Ea).
Qed.

End HeaderMore.

(** A rectangle of 3710 columns is stored with 3712. *)
Lemma read_header_column_padding_witness :
  exists pid m,
    _read_header (SB := Sample.seviri_base)
      (Sample.file_header 2 3712 3 1 3712 3712) = Ok (pid, m)
    /\ number_of_columns m mod 4 = 0
    /\ 3710 <= number_of_columns m < 3714.
Proof.
  eexists. eexists.
  match goal with
  | |- ?g = Ok ?o /\ _ => assert (Hr : g = Ok o) by (vm_compute; reflexivity)
  end.
  split; [ exact Hr | ].
  exact (read_header_column_padding (SB := Sample.seviri_base) _ _ _ Hr).
Defined.

(** The full-disk sample header with the satellite identifier 999. *)
Lemma read_header_unknown_platform_witness :
  _read_header (SB := Sample.seviri_base)
    {| data15hd :=
         {| SatelliteId := 999;
            GeometricProcessing := GeometricProcessing (Sample.data_header 2 2);
            ImageDescr := ImageDescr (Sample.data_header 2 2);
            Radiometric := Sample.coefficients |};
       sec15hd := Sample.secondary_header 3712 1 1 3712 3712 |}
  = Raise KeyError.
Proof.
  apply (read_header_unknown_platform (SB := Sample.seviri_base)).
  cbv. intuition discriminate.
Defined.

Section ChannelSelection.
Context {SB : SeviriBase}.
Variable names : list string.
Hypothesis table : CHANNEL_NAMES = combine (map Z.of_nat (seq 1 12)) names.
Hypothesis twelve : List.length names = 12%nat.
Hypothesis distinct : NoDup names.

Lemma channel_list_spec (hdr : Header) (pid : Z) (m : Metadata) :
  _read_header hdr = Ok (pid, m) ->
  let flags := selected (SelectedBandIDs (sec15hd hdr)) in
  available_channels m = combine names flags
  /\ channel_list m = map fst (filter snd (combine names flags))
  /\ (12 <= List.length flags)%nat.
Proof.
  intros H flags.
  destruct (read_header_inv hdr pid m H) as (sn & Ha & Hs & _).
  rewrite (get_available_channels_spec names table twelve distinct) in Ha.
  injection Ha as Ha. fold flags in Ha.
  rewrite <- Ha in Hs |- *. rewrite (values_table names table twelve) in Hs.
  split; [ reflexivity | ].
  destruct (Nat.le_gt_cases 12 (List.length flags)) as [Hle | Hgt].
  - pose proof (select_channels_spec names twelve distinct names [] [] flags
                  eq_refl eq_refl) as Hsel.
    cbn [app] in Hsel. rewrite Hsel in Hs by (rewrite twelve; exact Hle).
    injection Hs as Hs. now split.
  - pose proof (select_channels_short names twelve distinct names [] [] flags
                  eq_refl eq_refl) as Hsel.
    cbn [app] in Hsel. rewrite Hsel in Hs by (rewrite twelve; exact Hgt).
    discriminate Hs.
Qed.

(** X7. With a channel table that numbers twelve distinct channels from 1
    to 12, the metadata of a header that was read pairs each channel with
    whether its character of the band string is X, and the channel list is
    the channels so selected, in the order of the table; the band string
    had at least twelve characters. *)
Theorem read_header_channels (hdr : Header) (pid : Z) (m : Metadata) :
  _read_header hdr = Ok (pid, m) ->
  let flags := selected (SelectedBandIDs (sec15hd hdr)) in
  available_channels m = combine names flags
  /\ channel_list m = map fst (filter snd (combine names flags))
  /\ (12 <= List.length flags)%nat.
Proof. exact (channel_list_spec hdr pid m). Qed.

(** X8. With such a table, a band string of fewer than twelve characters
    makes [_read_header] raise [KeyError]: the channels past its end were
    never entered among the available ones. *)
Theorem read_header_short_band_string (hdr : Header) :
  (String.length (SelectedBandIDs (sec15hd hdr)) < 12)%nat ->
  _read_header hdr = Raise KeyError.
Proof.
  intros Hlen. unfold _read_header.
  rewrite (get_available_channels_spec names table twelve distinct).
  cbn [bind]. rewrite (values_table names table twelve).
  pose proof (select_channels_short names twelve distinct names [] []
                (selected (SelectedBandIDs (sec15hd hdr))) eq_refl eq_refl)
    as Hsel.
  cbn [app] in Hsel. rewrite Hsel.
  - reflexivity.
  - rewrite twelve. unfold selected. rewrite length_map.
    clear - Hlen. revert Hlen.
    generalize (SelectedBandIDs (sec15hd hdr)) as s.
    assert (E : forall s, List.length (chars s) = String.length s).
    { induction s as [ | c s IH ]; cbn; congruence. }
    intros s. now rewrite E.
Qed.

End ChannelSelection.

Lemma in_combine_nth {A B : Type} (a : list A) (b : list B) (x : A) (y : B) :
  In (x, y) (combine a b) ->
  exists j, nth_error a j = Some x /\ nth_error b j = Some y.
Proof.
  revert b. induction a as [ | x' a IH ]; intros [ | y' b ]; cbn;
    try contradiction.
  intros [[= -> ->] | Hin].
  - now exists 0%nat.
  - destruct (IH b Hin) as (j & Ha & Hb). now exists (S j).
Qed.

Lemma contains_In (x : string) (l : list string) :
  contains x l = true <-> In x l.
Proof.
  unfold contains. rewrite existsb_exists. split.
  - intros (y & Hin & E). apply String.eqb_eq in E. now subst.
  - intros Hin. exists x. split; [ exact Hin | apply String.eqb_refl ].
Qed.

Section UnselectedChannel.
Context {SB : SeviriBase}.
Variable _get_visir_channel :
  NativeMSGFileHandler -> DatasetId -> result (raster Z).
Variable _get_hrv_channel : NativeMSGFileHandler -> result (raster Z).
Variable names : list string.
Hypothesis table : CHANNEL_NAMES = combine (map Z.of_nat (seq 1 12)) names.
Hypothesis twelve : List.length names = 12%nat.
Hypothesis distinct : NoDup names.

(** X10. In a file that was opened, a channel of the table whose character
    of the band string is not X cannot be loaded: [get_dataset] raises
    [KeyError] before anything is read or calibrated. *)
Theorem unselected_channel_raises
        (hdr : Header) (trl : Trailer) (mode : string) (fill : bool)
        (self : NativeMSGFileHandler) (dataset_id : DatasetId)
        (dataset_info : DatasetInfo) (i : nat) (c : ascii) :
  init hdr trl mode fill = Ok self ->
  nth_error names i = Some (name dataset_id) ->
  nth_error (chars (SelectedBandIDs (sec15hd hdr))) i = Some c ->
  c <> "X"%char ->
  get_dataset _get_visir_channel _get_hrv_channel self dataset_id dataset_info
  = Raise KeyError.
Proof.
  intros Hinit Hn Hc Hx. unfold init in Hinit.
  destruct (_read_header hdr) as [[pid m] | ] eqn:Hr; cbn [bind] in Hinit;
    [ | discriminate Hinit ].
  injection Hinit as <-.
  destruct (channel_list_spec names table twelve distinct hdr pid m Hr)
    as (_ & Hcl & _).
  unfold get_dataset. cbn [mda].
  destruct (contains (name dataset_id) (channel_list m)) eqn:Hin;
    [ | reflexivity ].
  exfalso. apply contains_In in Hin. rewrite Hcl in Hin.
  apply in_map_iff in Hin. destruct Hin as ([n b] & E & Hf). cbn in E. subst n.
  apply filter_In in Hf. destruct Hf as [Hcomb Hb]. cbn in Hb. subst b.
  destruct (in_combine_nth _ _ _ _ Hcomb) as (j & Hj & Hfj).
  assert (i = j).
  { apply (proj1 (NoDup_nth_error names) distinct).
    - apply nth_error_Some. congruence.
    - congruence. }
  subst j. unfold selected in Hfj. rewrite nth_error_map, Hc in Hfj.
  cbn in Hfj. injection Hfj as Hfj. apply Ascii.eqb_eq in Hfj. contradiction.
Qed.

End UnselectedChannel.

(** The sample table numbers twelve distinct channels. *)
Lemma sample_table :
  CHANNEL_NAMES (SeviriBase := Sample.seviri_base)
  = combine (map Z.of_nat (seq 1 12)) (values Sample.channel_names).
Proof. reflexivity. Qed.

Lemma sample_distinct : NoDup (values Sample.channel_names).
Proof.
  replace (values Sample.channel_names)
    with (nodup string_dec (values Sample.channel_names)) by reflexivity.
  apply NoDup_nodup.
Qed.

(** The full-disk sample header with the band string X--XXXXXXXX-, and
    with a band string of eleven characters. *)
Lemma read_header_channels_witness :
  exists pid m,
    _read_header (SB := Sample.seviri_base)
      {| data15hd := Sample.data_header 2 2;
         sec15hd :=
           {| SelectedBandIDs := "X--XXXXXXXX-";
              NorthLineSelectedRectangle := 3712;
              EastColumnSelectedRectangle := 1;
              SouthLineSelectedRectangle := 1;
              WestColumnSelectedRectangle := 3712;
              NumberColumnsVISIR := 3712; NumberColumnsHRV := 11136;
              NumberLinesVISIR := 3712; NumberLinesHRV := 11136 |} |}
    = Ok (pid, m)
    /\ channel_list m
       = ["VIS006"; "IR_039"; "WV_062"; "WV_073"; "IR_087"; "IR_097";
          "IR_108"; "IR_120"; "IR_134"].
Proof.
  eexists. eexists.
  match goal with
  | |- ?g = Ok ?o /\ _ => assert (Hr : g = Ok o) by (vm_compute; reflexivity)
  end.
  split; [ exact Hr | ].
  exact (proj1 (proj2 (read_header_channels (SB := Sample.seviri_base)
                         (values Sample.channel_names)
                         sample_table eq_refl sample_distinct _ _ _ Hr))).
Defined.

Lemma read_header_short_band_string_witness :
  _read_header (SB := Sample.seviri_base)
    {| data15hd := Sample.data_header 2 2;
       sec15hd :=
         {| SelectedBandIDs := "XXXXXXXXXXX";
            NorthLineSelectedRectangle := 3712;
            EastColumnSelectedRectangle := 1;
            SouthLineSelectedRectangle := 1;
            WestColumnSelectedRectangle := 3712;
            NumberColumnsVISIR := 3712; NumberColumnsHRV := 11136;
            NumberLinesVISIR := 3712; NumberLinesHRV := 11136 |} |}
  = Raise KeyError.
Proof.
  apply (read_header_short_band_string (SB := Sample.seviri_base)
           (values Sample.channel_names) sample_table eq_refl sample_distinct).
  cbv. lia.
Defined.

(** Channel VIS008 of a file whose band string is X--XXXXXXXX-. *)
Lemma unselected_channel_raises_witness :
  exists self,
    init (SB := Sample.seviri_base)
      {| data15hd := Sample.data_header 2 2;
         sec15hd :=
           {| SelectedBandIDs := "X--XXXXXXXX-";
              NorthLineSelectedRectangle := 3712;
              EastColumnSelectedRectangle := 1;
              SouthLineSelectedRectangle := 1;
              WestColumnSelectedRectangle := 3712;
              NumberColumnsVISIR := 3712; NumberColumnsHRV := 11136;
              NumberLinesVISIR := 3712; NumberLinesHRV := 11136 |} |}
      (Sample.file_trailer false) "nominal" false = Ok self
    /\ get_dataset (SB := Sample.seviri_base) Sample.visir_counts Sample.hrv_counts
         self {| name := "VIS008"; calibration := "counts" |}
         {| info_units := "1"; info_wavelength := [];
            info_standard_name := "counts" |}
       = Raise KeyError.
Proof.
  eexists.
  match goal with
  | |- ?g = Ok ?o /\ _ => assert (Hi : g = Ok o) by (vm_compute; reflexivity)
  end.
  split; [ exact Hi | ].
  match goal with
  | |- get_dataset ?rv ?rh ?s ?d ?inf = _ =>
      refine (unselected_channel_raises (SB := Sample.seviri_base) rv rh
                (values Sample.channel_names) sample_table eq_refl
                sample_distinct _ _ _ _ s d inf 1%nat "-"%char
                Hi eq_refl eq_refl _)
  end.
  discriminate.
Defined.

(** ** Calibration requests *)

Section CalibrationMore.
Context {SB : SeviriBase}.

(** X11. The calibrations build on one another: a request for reflectance
    is the request for radiance followed by the visible calibration with
    the solar irradiance of the platform and channel, and a request for
    brightness temperature is the request for radiance followed by the
    infrared calibration with the planned processing of the channel; an
    exception of the radiance request is the exception of either. *)
Theorem calibrate_composes (self : NativeMSGFileHandler) (data : DataArray)
        (dataset_id : DatasetId) :
  let channel := name dataset_id in
  let radiance := calibrate self data (with_calibration dataset_id "radiance") in
  calibrate self data (with_calibration dataset_id "reflectance")
  = (res <- radiance ;;
     by_channel <- dict_get Z.eqb (platform_id self) CALIB ;;
     consts <- dict_get String.eqb channel by_channel ;;
     solar_irradiance <- dict_get String.eqb "F" consts ;;
     _vis_calibrate res solar_irradiance)
  /\ calibrate self data (with_calibration dataset_id "brightness_temperature")
     = (res <- radiance ;;
        i <- index channel (values CHANNEL_NAMES) ;;
        cal_type <- getitem
          (PlannedChanProcessing (ImageDescr (data15hd (header self)))) i ;;
        _ir_calibrate res channel cal_type).
Proof.
  intros channel radiance. unfold radiance, channel, calibrate, with_calibration.
  cbn [name calibration].
  destruct (index (name dataset_id) (values CHANNEL_NAMES)) as [i | e];
    cbn [bind]; [ | split; reflexivity ].
  change ("radiance" =? "counts")%string with false.
  change ("reflectance" =? "counts")%string with false.
  change ("brightness_temperature" =? "counts")%string with false.
  change (contains "radiance"
            ["radiance"; "reflectance"; "brightness_temperature"]) with true.
  change (contains "reflectance"
            ["radiance"; "reflectance"; "brightness_temperature"]) with true.
  change (contains "brightness_temperature"
            ["radiance"; "reflectance"; "brightness_temperature"]) with true.
  change ("radiance" =? "reflectance")%string with false.
  change ("radiance" =? "brightness_temperature")%string with false.
  change ("reflectance" =? "reflectance")%string with true.
  change ("brightness_temperature" =? "reflectance")%string with false.
  change ("brightness_temperature" =? "brightness_temperature")%string with true.
  cbv iota.
  destruct (negb _ && negb _); cbn [bind]; [ split; reflexivity | ].
  match goal with
  | |- context [bind ?c _] =>
      match c with
      | (if _ then _ else _) => destruct c as [[gain offset] | e]
      end
  end; cbn [bind]; [ | split; reflexivity ].
  destruct (_convert_to_radiance data gain offset) as [res | e]; cbn [bind];
    [ | split; reflexivity ].
  split.
  - destruct (dict_get Z.eqb (platform_id self) CALIB) as [bc | ]; cbn [bind];
      [ | reflexivity ].
    destruct (dict_get String.eqb (name dataset_id) bc) as [cs | ]; cbn [bind];
      [ | reflexivity ].
    destruct (dict_get String.eqb "F" cs) as [f | ]; cbn [bind];
      [ | reflexivity ].
    now destruct (_vis_calibrate res f).
  - destruct (getitem _ i) as [ct | ]; cbn [bind]; [ | reflexivity ].
    now destruct (_ir_calibrate res (name dataset_id) ct).
Qed.

(** X12. A channel outside the channel table makes [calibrate] raise
    [ValueError], even for counts.  For a channel of the table, a
    calibration other than counts, radiance, reflectance and brightness
    temperature makes it raise [UnboundLocalError], whatever the mode. *)
Theorem calibrate_unknown_request (self : NativeMSGFileHandler)
        (data : DataArray) (dataset_id : DatasetId) :
  (contains (name dataset_id) (values CHANNEL_NAMES) = false ->
   calibrate self data dataset_id = Raise ValueError)
  /\ (contains (name dataset_id) (values CHANNEL_NAMES) = true ->
      calibration dataset_id <> "counts" ->
      calibration dataset_id <> "radiance" ->
      calibration dataset_id <> "reflectance" ->
      calibration dataset_id <> "brightness_temperature" ->
      calibrate self data dataset_id = Raise UnboundLocalError).
Proof.
  unfold calibrate. split.
  - intros K. now rewrite (index_missing _ _ K).
  - intros K Hc Hr Hf Hb. destruct (index_contains _ _ K) as [i ->].
    cbn [bind]. unfold contains. cbn [existsb].
    destruct (String.eqb_spec (calibration dataset_id) "counts");
      [ contradiction | ].
    destruct (String.eqb_spec (calibration dataset_id) "radiance");
      [ contradiction | ].
    destruct (String.eqb_spec (calibration dataset_id) "reflectance");
      [ contradiction | ].
    destruct (String.eqb_spec (calibration dataset_id) "brightness_temperature");
      [ contradiction | ].
    reflexivity.
Qed.

(** X13. A mode of ASCII characters is read without regard to case: two
    handlers that differ only in the case of the letters of such a mode
    calibrate alike. *)
Theorem calibrate_ignores_case (self : NativeMSGFileHandler)
        (mode mode' : string) (data : DataArray) (dataset_id : DatasetId) :
  ascii_text mode = true -> ascii_text mode' = true ->
  same_mode mode mode' ->
  calibrate (with_calib_mode self mode) data dataset_id
  = calibrate (with_calib_mode self mode') data dataset_id.
Proof.
  unfold same_mode, calibrate, with_calib_mode. intros _ _ E.
  cbn [calib_mode header platform_id]. rewrite E. reflexivity.
Qed.

End CalibrationMore.

(** A channel that does not exist, and a calibration that does not. *)
Lemma calibrate_unknown_request_witness :
  exists self,
    init (SB := Sample.seviri_base) Sample.full_disk (Sample.file_trailer false)
         "nominal" false = Ok self
    /\ calibrate (SB := Sample.seviri_base) self (where_nonzero [[512; 0]])
         {| name := "VIS007"; calibration := "counts" |} = Raise ValueError
    /\ calibrate (SB := Sample.seviri_base) self (where_nonzero [[512; 0]])
         {| name := "VIS006"; calibration := "albedo" |}
       = Raise UnboundLocalError.
Proof.
  eexists. split; [ vm_compute; reflexivity | ]. split.
  - apply (proj1 (calibrate_unknown_request (SB := Sample.seviri_base) _ _
                    {| name := "VIS007"; calibration := "counts" |})).
    reflexivity.
  - apply (proj2 (calibrate_unknown_request (SB := Sample.seviri_base) _ _
                    {| name := "VIS006"; calibration := "albedo" |}));
      [ reflexivity | discriminate .. ].
Defined.

(** The modes GSICS and gsics on channel IR_108. *)
Lemma calibrate_ignores_case_witness :
  exists self,
    init (SB := Sample.seviri_base) Sample.full_disk (Sample.file_trailer false)
         "nominal" false = Ok self
    /\ calibrate (SB := Sample.seviri_base) (with_calib_mode self "GSICS")
         (where_nonzero [[512; 0]])
         {| name := "IR_108"; calibration := "radiance" |}
       = calibrate (SB := Sample.seviri_base) (with_calib_mode self "gsics")
           (where_nonzero [[512; 0]])
           {| name := "IR_108"; calibration := "radiance" |}.
Proof.
  eexists. split; [ vm_compute; reflexivity | ].
  apply calibrate_ignores_case; reflexivity.
Defined.

(** Reflectance and brightness temperature in the full-disk sample file. *)
Example calibrate_sample_chain :
  exists self,
    init (SB := Sample.seviri_base) Sample.full_disk (Sample.file_trailer false)
         "nominal" false = Ok self
    /\ calibrate (SB := Sample.seviri_base) self (where_nonzero [[512; 0]])
         {| name := "VIS006"; calibration := "reflectance" |}
       = Ok {| data := [[1440.625 / 65.5; nan]]%float; attrs := None |}
    /\ calibrate (SB := Sample.seviri_base) self (where_nonzero [[512; 0]])
         {| name := "IR_108"; calibration := "brightness_temperature" |}
       = Ok {| data := [[sqrt 14.40625 + 200; nan]]%float; attrs := None |}.
Proof.
  eexists. split; [ vm_compute; reflexivity | ].
  split; vm_compute; reflexivity.
Qed.

(** ** Padding and returned datasets *)

Lemma py_slice_inside {A : Type} (lo hi : Z) (l : list A) :
  0 <= lo <= hi -> hi <= Z.of_nat (List.length l) ->
  py_slice lo hi l = firstn (Z.to_nat (hi - lo)) (skipn (Z.to_nat lo) l).
Proof.
  intros Hlo Hhi. unfold py_slice.
  destruct (Z.ltb_spec lo 0); [ lia | ].
  destruct (Z.ltb_spec hi 0); [ lia | ].
  now rewrite !Z.min_l by lia.
Qed.



Section ReturnedDataset.
Context {SB : SeviriBase}.
Variable _get_visir_channel :
  NativeMSGFileHandler -> DatasetId -> result (raster Z).
Variable _get_hrv_channel : NativeMSGFileHandler -> result (raster Z).

(** X15. Every dataset [get_dataset] returns, padded or not, carries the
    units, wavelength and standard name asked for, the platform name of
    the file, the sensor name seviri, and the sub-satellite longitude,
    latitude 0 and altitude of the projection. *)
Theorem get_dataset_attrs (self : NativeMSGFileHandler)
        (dataset_id : DatasetId) (dataset_info : DatasetInfo)
        (out : DataArray) :
  get_dataset _get_visir_channel _get_hrv_channel
              self dataset_id dataset_info = Ok out ->
  attrs out = Some (dataset_attrs self dataset_info).
Proof.
  intros H. unfold get_dataset in H. unfold dataset_attrs.
  destruct (negb (contains (name dataset_id) (channel_list (mda self))));
    [ discriminate H | ].
  destruct (if negb (contains (name dataset_id) ["HRV"])
            then _get_visir_channel self dataset_id
            else _get_hrv_channel self) as [counts | ];
    cbn [bind] in H; [ | discriminate H ].
  destruct (calibrate self (where_nonzero counts) dataset_id)
    as [calibrated | ]; cbn [bind] in H; [ | discriminate H ].
  destruct (fill_disk self && _).
  - destruct (ImageBoundaries.get_img_bounds _ _ _) as [img_bounds | ];
      cbn [bind] in H; [ | discriminate H ].
    unfold pad_data in H. unfold_ok; reflexivity.
  - injection H as <-. reflexivity.
Qed.

End ReturnedDataset.

(** Counts of VIS006 in the rapid-scan sample file. *)
Lemma get_dataset_attrs_witness :
  exists self out,
    init (SB := Sample.seviri_base) Sample.rapid_scan (Sample.file_trailer true)
         "nominal" false = Ok self
    /\ get_dataset (SB := Sample.seviri_base) Sample.visir_counts Sample.hrv_counts
         self {| name := "VIS006"; calibration := "counts" |}
         {| info_units := "1"; info_wavelength := [0.56; 0.635; 0.71]%float;
            info_standard_name := "counts" |} = Ok out
    /\ option_map sensor (attrs out) = Some "seviri"
    /\ option_map attr_platform_name (attrs out) = Some "Meteosat-10".
Proof.
  eexists. eexists. split; [ vm_compute; reflexivity | ].
  match goal with
  | |- ?g = Ok ?o /\ _ => assert (Hget : g = Ok o) by (vm_compute; reflexivity)
  end.
  split; [ exact Hget | ].
  rewrite (get_dataset_attrs (SB := Sample.seviri_base) _ _ _ _ _ _ Hget).
  split; reflexivity.
Defined.

(** ** Area definitions *)

Lemma mapM_length {A B : Type} (f : A -> result B) (l : list A) (r : list B) :
  mapM f l = Ok r -> List.length r = List.length l.
Proof.
  revert r. induction l as [ | a l IH ]; cbn; intros r H.
  - now injection H as <-.
  - unfold_ok. cbn. f_equal. now apply IH.
Qed.

Lemma zip3_rows {A B C : Type} (rows : list (A * B * C)) :
  zip3 (map (fun r => fst (fst r)) rows) (map (fun r => snd (fst r)) rows)
       (map snd rows) = rows.
Proof.
  induction rows as [ | [[a b] c] rows IH ]; cbn; [ reflexivity | ].
  now rewrite IH.
Qed.

(** The extents come one per window. *)
Lemma get_area_extent_rows (self : NativeMSGFileHandler)
      (dataset_id : DatasetId) (aex : AexData) :
  get_area_extent self dataset_id = Ok aex ->
  exists rows,
    aex = {| area_extent := map (fun r => fst (fst r)) rows;
             nlines := map (fun r => snd (fst r)) rows;
             ncolumns := map snd rows |}
    /\ List.length rows
       = (if is_hrv dataset_id && negb (is_roi self) && is_full_disk (mda self)
          then 2 else 1)%nat.
Proof.
  intros H. unfold get_area_extent in H.
  rewrite get_img_bounds_returns in H. unfold_ok.
  all: match goal with
       | E : mapM _ _ = Ok ?rows |- _ =>
           exists rows; split; [ reflexivity | ];
           rewrite (mapM_length _ _ _ E)
       end.
  all: unfold ImageBoundaries._get_hrv_actual_img_bounds,
         ImageBoundaries._get_selected_img_bounds;
       cbn [image_boundaries ImageBoundaries._mda ImageBoundaries._trailer
            ImageBoundaries._header].
  all: destruct (is_hrv dataset_id && negb (is_roi self)); cbn [andb];
       [ destruct (is_full_disk (mda self)); reflexivity
       | destruct (name dataset_id =? "HRV")%string; reflexivity ].
Qed.

Section AreaDefinitions.
Context {G : Geos}.

(** X16. Except for the HRV channel of a full-disk file that is no region
    of interest, the area [get_area_def] returns is the one
    [get_area_definition] builds from the single extent of the file, with
    the line and column counts of that extent in its parameters. *)
Theorem get_area_def_single (self : NativeMSGFileHandler)
        (dataset_id : DatasetId) (area : AreaDefinition) :
  is_hrv dataset_id && negb (is_roi self) && is_full_disk (mda self) = false ->
  get_area_def self dataset_id = Ok area ->
  exists mode_name mode_desc aex nl nc,
    get_service_mode (ssp_longitude (projection_parameters (mda self)))
    = Ok (mode_name, mode_desc)
    /\ get_area_extent self dataset_id
       = Ok {| area_extent := [aex]; nlines := [nl]; ncolumns := [nc] |}
    /\ get_area_definition
         (area_pdict self dataset_id mode_name mode_desc nl nc) aex
       = Ok area.
Proof.
  intros Hone H. unfold get_area_def in H.
  destruct (get_service_mode _) as [[mode_name mode_desc] | ]; cbn [bind] in H;
    [ | discriminate H ].
  destruct (get_area_extent self dataset_id) as [aex_data | ] eqn:Ea;
    cbn [bind] in H; [ | discriminate H ].
  destruct (get_area_extent_rows _ _ _ Ea) as (rows & -> & Hlen).
  rewrite Hone in Hlen. cbn [area_extent nlines ncolumns] in H.
  rewrite zip3_rows in H.
  destruct rows as [ | [[aex nl] nc] [ | ] ]; try discriminate Hlen.
  cbn [mapM bind] in H.
  destruct (get_area_definition _ aex) as [a0 | ] eqn:Ed; cbn [bind] in H;
    [ | discriminate H ].
  injection H as <-.
  exists mode_name, mode_desc, aex, nl, nc. repeat split; assumption.
Qed.

(** X17. For the HRV channel of a full-disk file that is no region of
    interest, the area [get_area_def] returns is the stack of the areas of
    the two windows, the lower one first. *)
Theorem get_area_def_stacked (self : NativeMSGFileHandler)
        (dataset_id : DatasetId) (area : AreaDefinition) :
  is_hrv dataset_id && negb (is_roi self) && is_full_disk (mda self) = true ->
  get_area_def self dataset_id = Ok area ->
  exists mode_name mode_desc aex0 nl0 nc0 aex1 nl1 nc1 a0 a1,
    get_service_mode (ssp_longitude (projection_parameters (mda self)))
    = Ok (mode_name, mode_desc)
    /\ get_area_extent self dataset_id
       = Ok {| area_extent := [aex0; aex1]; nlines := [nl0; nl1];
               ncolumns := [nc0; nc1] |}
    /\ get_area_definition
         (area_pdict self dataset_id mode_name mode_desc nl0 nc0) aex0 = Ok a0
    /\ get_area_definition
         (area_pdict self dataset_id mode_name mode_desc nl1 nc1) aex1 = Ok a1
    /\ stacked_squeeze a0 a1 = Ok area.
Proof.
  intros Htwo H. unfold get_area_def in H.
  destruct (get_service_mode _) as [[mode_name mode_desc] | ]; cbn [bind] in H;
    [ | discriminate H ].
  destruct (get_area_extent self dataset_id) as [aex_data | ] eqn:Ea;
    cbn [bind] in H; [ | discriminate H ].
  destruct (get_area_extent_rows _ _ _ Ea) as (rows & -> & Hlen).
  rewrite Htwo in Hlen. cbn [area_extent nlines ncolumns] in H.
  rewrite zip3_rows in H.
  destruct rows as [ | [[aex0 nl0] nc0] [ | [[aex1 nl1] nc1] [ | ] ] ];
    try discriminate Hlen.
  cbn [mapM bind] in H.
  destruct (get_area_definition _ aex0) as [a0 | ] eqn:E0; cbn [bind] in H;
    [ | discriminate H ].
  destruct (get_area_definition _ aex1) as [a1 | ] eqn:E1; cbn [bind] in H;
    [ | discriminate H ].
  exists mode_name, mode_desc, aex0, nl0, nc0, aex1, nl1, nc1, a0, a1.
  repeat split; assumption.
Qed.

End AreaDefinitions.

(** Channel VIS006 of the full-disk sample file: one area. *)
Lemma get_area_def_single_witness :
  exists self area,
    init (SB := Sample.seviri_base) Sample.full_disk (Sample.file_trailer false)
         "nominal" false = Ok self
    /\ get_area_def (G := SampleGeos.geos) self
         {| name := "VIS006"; calibration := "radiance" |} = Ok area
    /\ exists aex nl nc,
        get_area_extent self {| name := "VIS006"; calibration := "radiance" |}
        = Ok {| area_extent := [aex]; nlines := [nl]; ncolumns := [nc] |}
        /\ area = [("msg_seviri_fes_3km", nl, nc, aex)].
Proof.
  eexists. eexists. split; [ vm_compute; reflexivity | ].
  match goal with
  | |- ?g = Ok ?o /\ _ => assert (Hdef : g = Ok o) by (vm_compute; reflexivity)
  end.
  split; [ exact Hdef | ].
  pose proof (fun h => get_area_def_single (G := SampleGeos.geos) _ _ _ h Hdef)
    as Hs.
  destruct (Hs eq_refl) as (mn & md & aex & nl & nc & Hm & He & Hd).
  exists aex, nl, nc. split; [ exact He | ].
  vm_compute in Hm. injection Hm as <- <-.
  vm_compute in Hd. injection Hd as -> -> ->. reflexivity.
Defined.

(** The HRV channel of the same file: the lower and the upper window. *)
Lemma get_area_def_stacked_witness :
  exists self area,
    init (SB := Sample.seviri_base) Sample.full_disk (Sample.file_trailer false)
         "nominal" false = Ok self
    /\ get_area_def (G := SampleGeos.geos) self
         {| name := "HRV"; calibration := "radiance" |} = Ok area
    /\ exists aex0 aex1,
        get_area_extent self {| name := "HRV"; calibration := "radiance" |}
        = Ok {| area_extent := [aex0; aex1]; nlines := [8064; 3072];
                ncolumns := [5568; 5568] |}
        /\ area = [("msg_seviri_fes_1km", 8064, 5568, aex0);
                   ("msg_seviri_fes_1km", 3072, 5568, aex1)].
Proof.
  eexists. eexists. split; [ vm_compute; reflexivity | ].
  match goal with
  | |- ?g = Ok ?o /\ _ => assert (Hdef : g = Ok o) by (vm_compute; reflexivity)
  end.
  split; [ exact Hdef | ].
  pose proof (fun h => get_area_def_stacked (G := SampleGeos.geos) _ _ _ h Hdef)
    as Hs.
  destruct (Hs eq_refl)
    as (mn & md & aex0 & nl0 & nc0 & aex1 & nl1 & nc1 & a0 & a1
        & Hm & He & H0 & H1 & Hst).
  pose proof He as Hv. vm_compute in Hv.
  injection Hv as E1 E2 E3 E4 E5 E6. subst.
  eexists. eexists. split; [ exact He | ].
  vm_compute in Hm. injection Hm as <- <-.
  vm_compute in H0. injection H0 as <-.
  vm_compute in H1. injection H1 as <-.
  reflexivity.
Defined.

(** * The extents of a dataset, window by window *)

Lemma mapM_ext {A B : Type} (f g : A -> result B) (l : list A) :
  (forall a, f a = g a) -> mapM f l = mapM g l.
Proof.
  intros E. induction l as [ | a l IH ]; cbn; [ reflexivity | ].
  now rewrite E, IH.
Qed.

Lemma result_map_mapM {A B C : Type} (h : B -> C) (f : A -> result B)
      (l : list A) :
  result_map (map h) (mapM f l) = mapM (fun a => result_map h (f a)) l.
Proof.
  induction l as [ | a l IH ]; cbn; [ reflexivity | ].
  destruct (f a) as [b | e]; cbn; [ | reflexivity ].
  rewrite <- IH. now destruct (mapM f l).
Qed.

(** The grid [get_area_extent] sets up never fails: the centre is 1856 on
    the standard grid and 5566 on the HRV grid. *)
Lemma reference_grid_returns (data15hd : DataHeader) (dataset_id : DatasetId) :
  let grid :=
    if is_hrv dataset_id then ReferenceGridHRV (ImageDescr data15hd)
    else ReferenceGridVIS_IR (ImageDescr data15hd) in
  reference_grid data15hd dataset_id
  = Ok {| grid_origin := GridOrigin grid;
          center_point := PyFloat (if is_hrv dataset_id then 5566 else 1856);
          column_step := PyFloat (ColumnDirGridStep grid * 1000.0)%float;
          line_step := PyFloat (LineDirGridStep grid * 1000.0)%float;
          nlines_fulldisk :=
            if is_hrv dataset_id then HRV_NUM_LINES else VISIR_NUM_LINES;
          ncolumns_fulldisk :=
            if is_hrv dataset_id then HRV_NUM_COLUMNS else VISIR_NUM_COLUMNS |}.
Proof.
  unfold reference_grid, is_hrv.
  destruct (name dataset_id =? "HRV")%string; reflexivity.
Qed.

(** With the offsets of the earth model and a grid whose origin is the
    south-east corner, the extents [get_area_extent] returns are those of
    the resolved windows, each computed by [_calculate_area_extent] with
    the centre of the grid and these offsets. *)
Lemma get_area_extent_described (self : NativeMSGFileHandler)
      (dataset_id : DatasetId) (ns_offset we_offset : pynum) :
  let data15hd := data15hd (header self) in
  let grid :=
    if is_hrv dataset_id then ReferenceGridHRV (ImageDescr data15hd)
    else ReferenceGridVIS_IR (ImageDescr data15hd) in
  earth_model_offsets (TypeOfEarthModel (GeometricProcessing data15hd))
    dataset_id = Ok (ns_offset, we_offset) ->
  GridOrigin grid = 2 ->
  result_map area_extent (get_area_extent self dataset_id)
  = mapM (described_extent self dataset_id
            (PyFloat (if is_hrv dataset_id then 5566 else 1856))
            we_offset ns_offset)
         (resolved_windows self dataset_id).
Proof.
  intros data15hd grid Ho Hor. unfold get_area_extent.
  fold data15hd. rewrite Ho. cbn [bind].
  rewrite reference_grid_returns. cbn [bind grid_origin].
  fold grid. rewrite Hor. cbn [Z.eqb Pos.eqb negb bind].
  rewrite get_img_bounds_returns. cbn [bind]. fold (resolved_windows self dataset_id).
  match goal with
  | |- result_map _ (bind ?m _) = _ =>
      transitivity (result_map (map (fun r : extent * Z * Z => fst (fst r))) m);
        [ destruct m; reflexivity | ]
  end.
  rewrite result_map_mapM. apply mapM_ext.
  intros [[[south north] east] west].
  unfold window_extent, described_extent.
  cbn [center_point column_step line_step nlines_fulldisk ncolumns_fulldisk].
  subst grid data15hd.
  destruct (fill_disk self); cbn [andb];
    [ destruct (is_full_disk (mda self)); cbn [negb] | ];
    cbv zeta;
    match goal with
    | |- _ = ?m => destruct m; reflexivity
    end.
Qed.

(** C4. The offsets of the earth model, as [get_area_extent] applies them
    to every window: none for earth model 2; for earth model 1 a
    north-south offset of -0.5 and a west-east offset of +0.5, and -1.5
    and +1.5 for the HRV channel.  With any other code [get_area_extent]
    raises [NotImplementedError]. *)
Theorem earth_model_offsets_spec (self : NativeMSGFileHandler)
        (dataset_id : DatasetId) :
  let data15hd := data15hd (header self) in
  let earth_model := TypeOfEarthModel (GeometricProcessing data15hd) in
  let hrv := is_hrv dataset_id in
  let grid :=
    if hrv then ReferenceGridHRV (ImageDescr data15hd)
    else ReferenceGridVIS_IR (ImageDescr data15hd) in
  let center_point := PyFloat (if hrv then 5566 else 1856) in
  let extents := result_map area_extent (get_area_extent self dataset_id) in
  (earth_model = 2 -> GridOrigin grid = 2 ->
   let ns_offset := PyInt 0 in
   let we_offset := PyInt 0 in
   extents
   = mapM (described_extent self dataset_id center_point we_offset ns_offset)
          (resolved_windows self dataset_id))
  /\ (earth_model = 1 -> GridOrigin grid = 2 ->
      let ns_offset := PyFloat (if hrv then -1.5 else -0.5) in
      let we_offset := PyFloat (if hrv then 1.5 else 0.5) in
      extents
      = mapM (described_extent self dataset_id center_point we_offset ns_offset)
             (resolved_windows self dataset_id))
  /\ (earth_model <> 2 -> earth_model <> 1 ->
      get_area_extent self dataset_id = Raise NotImplementedError).
Proof.
  intros data15hd earth_model hrv grid center_point extents.
  split; [ | split ].
  - intros Hem Hor ns_offset we_offset.
    apply get_area_extent_described; [ | exact Hor ].
    fold data15hd earth_model. rewrite Hem. reflexivity.
  - intros Hem Hor ns_offset we_offset.
    apply get_area_extent_described; [ | exact Hor ].
    fold data15hd earth_model. rewrite Hem.
    unfold ns_offset, we_offset, hrv, is_hrv, earth_model_offsets.
    cbn [Z.eqb Pos.eqb].
    destruct (name dataset_id =? "HRV")%string; reflexivity.
  - intros H2 H1. apply get_area_extent_unrecognised.
    fold data15hd earth_model. unfold earth_model_offsets.
    destruct (Z.eqb_spec earth_model 2); [ contradiction | ].
    destruct (Z.eqb_spec earth_model 1); [ contradiction | reflexivity ].
Qed.

(** Full-disk files with earth model 2 and earth model 1: the extent of
    channel VIS006, and the half-pixel shift between the two.  A file with
    earth model 3 has no area extent. *)
Lemma earth_model_offsets_spec_witness :
  (exists self,
     init (SB := Sample.seviri_base) (Sample.file_header 2 3712 1 1 3712 3712)
          (Sample.file_trailer false) "nominal" false = Ok self
     /\ result_map area_extent
          (get_area_extent self {| name := "VIS006"; calibration := "radiance" |})
        = Ok [(PyFloat 5567248.0741739273, PyFloat 5570248.4773397446,
               PyFloat (-5570248.4773397446), PyFloat (-5567248.0741739273))%float])
  /\ (exists self,
        init (SB := Sample.seviri_base) (Sample.file_header 1 3712 1 1 3712 3712)
             (Sample.file_trailer false) "nominal" false = Ok self
        /\ result_map area_extent
             (get_area_extent self {| name := "VIS006"; calibration := "radiance" |})
           = Ok [(PyFloat 5568748.2757568359, PyFloat 5568748.2757568359,
                  PyFloat (-5568748.2757568359), PyFloat (-5568748.2757568359))%float])
  /\ (exists self,
        init (SB := Sample.seviri_base) (Sample.file_header 3 3712 1 1 3712 3712)
             (Sample.file_trailer false) "nominal" false = Ok self
        /\ get_area_extent self {| name := "VIS006"; calibration := "radiance" |}
           = Raise NotImplementedError).
Proof.
  split; [ | split ].
  - eexists. split; [ vm_compute; reflexivity | ].
    etransitivity;
      [ apply (proj1 (earth_model_offsets_spec _
                        {| name := "VIS006"; calibration := "radiance" |}));
        reflexivity
      | vm_compute; reflexivity ].
  - eexists. split; [ vm_compute; reflexivity | ].
    etransitivity;
      [ apply (proj1 (proj2 (earth_model_offsets_spec _
                        {| name := "VIS006"; calibration := "radiance" |})));
        reflexivity
      | vm_compute; reflexivity ].
  - eexists. split; [ vm_compute; reflexivity | ].
    apply (proj2 (proj2 (earth_model_offsets_spec _
                           {| name := "VIS006"; calibration := "radiance" |})));
      vm_compute; congruence.
Defined.

(** C10. The centre pixel of the extent formula is 3712 / 2 = 1856 on the
    standard grid, and 11136 / 2 - 2 = 5566, not 11136 / 2, for the HRV
    channel: whatever the file, every extent [get_area_extent] returns is
    computed by [_calculate_area_extent] with this centre, for every
    window of the dataset. *)
Theorem center_point_spec (self : NativeMSGFileHandler)
        (dataset_id : DatasetId) :
  let data15hd := data15hd (header self) in
  let earth_model := TypeOfEarthModel (GeometricProcessing data15hd) in
  let hrv := is_hrv dataset_id in
  let grid :=
    if hrv then ReferenceGridHRV (ImageDescr data15hd)
    else ReferenceGridVIS_IR (ImageDescr data15hd) in
  let ns_offset :=
    if earth_model =? 2 then PyInt 0
    else PyFloat (if hrv then -1.5 else -0.5) in
  let we_offset :=
    if earth_model =? 2 then PyInt 0
    else PyFloat (if hrv then 1.5 else 0.5) in
  int_truediv_2 VISIR_NUM_COLUMNS = Ok 1856%float
  /\ int_truediv_2 HRV_NUM_COLUMNS = Ok 5568%float
  /\ sub (PyFloat 5568) (PyInt 2) = Ok (PyFloat 5566)
  /\ (earth_model = 1 \/ earth_model = 2 -> GridOrigin grid = 2 ->
      result_map area_extent (get_area_extent self dataset_id)
      = mapM (described_extent self dataset_id
                (PyFloat (if hrv then 5566 else 1856)) we_offset ns_offset)
             (resolved_windows self dataset_id))
  /\ (earth_model = 1 \/ earth_model = 2 -> GridOrigin grid = 2 ->
      forall aex, get_area_extent self dataset_id = Ok aex ->
      Forall2 (fun w e =>
                 described_extent self dataset_id
                   (PyFloat (if hrv then 5566 else 1856)) we_offset ns_offset w
                 = Ok e)
              (resolved_windows self dataset_id) (area_extent aex)).
Proof.
  intros data15hd earth_model hrv grid ns_offset we_offset.
  assert (E : earth_model = 1 \/ earth_model = 2 -> GridOrigin grid = 2 ->
              result_map area_extent (get_area_extent self dataset_id)
              = mapM (described_extent self dataset_id
                        (PyFloat (if hrv then 5566 else 1856))
                        we_offset ns_offset)
                     (resolved_windows self dataset_id)).
  { intros Hem Hor. apply get_area_extent_described; [ | exact Hor ].
    fold data15hd earth_model.
    unfold ns_offset, we_offset, hrv, is_hrv, earth_model_offsets.
    destruct Hem as [-> | ->]; cbn [Z.eqb Pos.eqb];
      [ destruct (name dataset_id =? "HRV")%string | ]; reflexivity. }
  split; [ reflexivity | ]. split; [ reflexivity | ].
  split; [ reflexivity | ]. split; [ exact E | ].
  intros Hem Hor aex Hget. specialize (E Hem Hor). rewrite Hget in E.
  cbn [result_map] in E. symmetry in E. revert E.
  generalize (area_extent aex).
  generalize (resolved_windows self dataset_id).
  induction l as [ | w l IH ]; intros es; cbn [mapM].
  - intros [= <-]. constructor.
  - destruct (described_extent _ _ _ _ _ w) as [e | ] eqn:Hw; cbn [bind];
      [ | discriminate ].
    destruct (mapM _ l) as [es' | ] eqn:Hl; cbn [bind]; [ | discriminate ].
    intros [= <-]. constructor; [ exact Hw | ]. now apply IH.
Qed.

(** The HRV channel of the full-disk sample file: the extents of its two
    windows, computed around the centre 5566. *)
Lemma center_point_spec_witness :
  exists self,
    init (SB := Sample.seviri_base) Sample.full_disk (Sample.file_trailer false)
         "nominal" false = Ok self
    /\ result_map area_extent
         (get_area_extent self {| name := "HRV"; calibration := "radiance" |})
       = Ok [(PyFloat 2761871.0044026375, PyFloat 2498835.6706500053,
              PyFloat (-2806877.050101757), PyFloat (-5566247.7186322212));
             (PyFloat 5566247.7186322212, PyFloat 5571248.3903765678,
              PyFloat (-2500.3358721733093), PyFloat 2498835.6706500053)]%float.
Proof.
  eexists. split; [ vm_compute; reflexivity | ].
  etransitivity;
    [ apply (proj1 (proj2 (proj2 (proj2 (center_point_spec _
                {| name := "HRV"; calibration := "radiance" |})))));
      [ right; reflexivity | reflexivity ]
    | vm_compute; reflexivity ].
Defined.

(** * Zero counts in the returned dataset, padded or not *)

Lemma cell_app_l {A : Type} (a b : raster A) (i j : nat) (v : A) :
  cell a i j = Some v -> cell (a ++ b) i j = Some v.
Proof.
  unfold cell. destruct (nth_error a i) as [row | ] eqn:E; [ | discriminate ].
  rewrite nth_error_app1 by (apply nth_error_Some; congruence).
  now rewrite E.
Qed.

Lemma cell_app_r {A : Type} (a b : raster A) (i j : nat) :
  cell (a ++ b) (List.length a + i) j = cell b i j.
Proof.
  unfold cell. rewrite nth_error_app2 by lia.
  now replace (List.length a + i - List.length a)%nat with i by lia.
Qed.

Lemma cell_py_slice {A : Type} (lo hi : Z) (l : raster A) (i j : nat) :
  0 <= lo <= hi -> hi <= Z.of_nat (List.length l) ->
  lo <= Z.of_nat i < hi ->
  cell (py_slice lo hi l) (i - Z.to_nat lo) j = cell l i j.
Proof.
  intros Hlo Hhi Hi. rewrite py_slice_inside by assumption. unfold cell.
  rewrite nth_error_firstn.
  destruct (Nat.ltb_spec (i - Z.to_nat lo) (Z.to_nat (hi - lo))); [ | lia ].
  rewrite nth_error_skipn.
  now replace (Z.to_nat lo + (i - Z.to_nat lo))%nat with i by lia.
Qed.

Lemma py_slice_length {A : Type} (lo hi : Z) (l : list A) :
  0 <= lo <= hi -> hi <= Z.of_nat (List.length l) ->
  List.length (py_slice lo hi l) = Z.to_nat (hi - lo).
Proof.
  intros Hlo Hhi. rewrite py_slice_inside by assumption.
  rewrite length_firstn, length_skipn. lia.
Qed.

(** The windows of a file that is no full disk, and of the HRV channel of
    one that is. *)
Lemma resolved_windows_single (self : NativeMSGFileHandler)
      (dataset_id : DatasetId) :
  is_full_disk (mda self) = false ->
  exists south north east west,
    resolved_windows self dataset_id = [(south, north, east, west)].
Proof.
  intros Hfd. unfold resolved_windows.
  destruct (is_hrv dataset_id && negb (is_roi self)).
  - unfold ImageBoundaries._get_hrv_actual_img_bounds, image_boundaries.
    cbn [ImageBoundaries._mda ImageBoundaries._trailer]. rewrite Hfd.
    cbn. eauto.
  - unfold ImageBoundaries._get_selected_img_bounds.
    destruct (name dataset_id =? "HRV")%string; cbn; eauto.
Qed.

Lemma resolved_windows_full_disk_hrv (self : NativeMSGFileHandler)
      (dataset_id : DatasetId) :
  is_full_disk (mda self) = true -> is_padded self dataset_id = true ->
  resolved_windows self dataset_id
  = [window_of (LowerActual (trailer self));
     window_of (UpperActual (trailer self))].
Proof.
  intros Hfd Hpad. unfold is_padded in Hpad. rewrite Hfd in Hpad.
  unfold resolved_windows, is_hrv, is_roi. rewrite Hfd.
  destruct (name dataset_id =? "HRV")%string;
    [ | now rewrite andb_false_r in Hpad ].
  cbn [negb andb].
  unfold ImageBoundaries._get_hrv_actual_img_bounds, image_boundaries.
  cbn [ImageBoundaries._mda ImageBoundaries._trailer]. rewrite Hfd.
  reflexivity.
Qed.

Section PaddedDatasetFacts.
Context {SB : SeviriBase}.
Variable _get_visir_channel :
  NativeMSGFileHandler -> DatasetId -> result (raster Z).
Variable _get_hrv_channel : NativeMSGFileHandler -> result (raster Z).

(** The conversions of [seviri_base] work sample by sample and keep
    no-data in place. *)
Hypothesis radiance_keeps_nodata :
  forall d gain offset r,
    _convert_to_radiance d gain offset = Ok r -> nodata_kept d r.
Hypothesis vis_keeps_nodata :
  forall d solar_irradiance r,
    _vis_calibrate d solar_irradiance = Ok r -> nodata_kept d r.
Hypothesis ir_keeps_nodata :
  forall d channel cal_type r,
    _ir_calibrate d channel cal_type = Ok r -> nodata_kept d r.

(** The padding helpers of [seviri_base] place the data they are given as
    the format description says: the horizontal one keeps the lines and
    puts the first column of the data at column [east_bound - 1], the
    vertical one puts its first line at line [south_bound - 1]. *)
Hypothesis pad_horizontally_keeps_lines :
  forall d final_size east_bound west_bound r,
    pad_data_horizontally d final_size east_bound west_bound = Ok r ->
    List.length r = List.length d.
Hypothesis pad_horizontally_places :
  forall d final_size east_bound west_bound r,
    pad_data_horizontally d final_size east_bound west_bound = Ok r ->
    forall i j v, cell d i j = Some v ->
                  cell r i (j + Z.to_nat (east_bound - 1)) = Some v.
Hypothesis pad_vertically_places :
  forall d final_size south_bound north_bound r,
    pad_data_vertically d final_size south_bound north_bound = Ok r ->
    forall i j v, cell d i j = Some v ->
                  cell r (i + Z.to_nat (south_bound - 1)) j = Some v.

(** One window, not a full disk: padded in its columns, then in its
    lines. *)
Lemma pad_data_single (padder : Padder) (dataset out : DataArray)
      (south north east west : Z) :
  windows (_img_bounds padder) = [(south, north, east, west)] ->
  _is_full_disk padder = false ->
  pad_data padder dataset = Ok out ->
  exists b,
    pad_data_horizontally (data dataset)
      (north - south + 1, snd (_final_shape padder)) east west = Ok b
    /\ pad_data_vertically b (_final_shape padder) south north = Ok (data out).
Proof.
  intros Hw Hfd H. unfold pad_data in H. rewrite Hw, Hfd in H.
  cbn [mapM rev app negb] in H.
  unfold pad_window, _extract_data_to_pad in H. rewrite Hfd in H.
  destruct (pad_data_horizontally _ _ _ _) as [b | ] eqn:Hb;
    cbn [bind List.concat] in H; [ | discriminate H ].
  rewrite app_nil_r in H.
  destruct (pad_data_vertically _ _ _ _) as [r | ] eqn:Hr;
    cbn [bind] in H; [ | discriminate H ].
  injection H as <-. exists b. split; [ reflexivity | exact Hr ].
Qed.

(** Two windows of a full disk: each cut from the dataset and padded in
    its columns, the lower one stacked before the upper one. *)
Lemma pad_data_two (padder : Padder) (dataset out : DataArray)
      (s0 n0 e0 w0 s1 n1 e1 w1 : Z) :
  windows (_img_bounds padder) = [(s0, n0, e0, w0); (s1, n1, e1, w1)] ->
  _is_full_disk padder = true ->
  pad_data padder dataset = Ok out ->
  exists b0 b1,
    pad_data_horizontally (py_slice (s0 - 1) n0 (data dataset))
      (n0 - s0 + 1, snd (_final_shape padder)) e0 w0 = Ok b0
    /\ pad_data_horizontally (py_slice (s1 - 1) n1 (data dataset))
         (n1 - s1 + 1, snd (_final_shape padder)) e1 w1 = Ok b1
    /\ data out = b0 ++ b1.
Proof.
  intros Hw Hfd H. unfold pad_data in H. rewrite Hw, Hfd in H.
  cbn [mapM rev app negb] in H.
  unfold pad_window, _extract_data_to_pad in H. rewrite Hfd in H.
  destruct (pad_data_horizontally _ _ e0 w0) as [b0 | ] eqn:H0;
    cbn [bind] in H; [ | discriminate H ].
  destruct (pad_data_horizontally _ _ e1 w1) as [b1 | ] eqn:H1;
    cbn [bind List.concat] in H; [ | discriminate H ].
  rewrite app_nil_r in H. injection H as <-.
  exists b0, b1. repeat split; assumption.
Qed.

(** C5. In the dataset [get_dataset] returns, every sample whose decoded
    count is 0 is NaN, whatever the channel and the calibration asked
    for.  The counts are masked first, [calibrate] receives the masked
    array, and its result holds NaN wherever a count was 0.  Without
    padding that sample is the sample of the returned data.  With
    padding, it sits where the padding puts it: for a file that is no
    full disk, shifted by the south and east bounds of its one window;
    for the HRV channel of a full disk, in the lower or the upper window
    that holds its line, shifted by the window's east bound, the upper
    window stacked after the lower one. *)
Theorem zero_counts_are_nodata (self : NativeMSGFileHandler)
        (dataset_id : DatasetId) (dataset_info : DatasetInfo)
        (out : DataArray) :
  get_dataset _get_visir_channel _get_hrv_channel
              self dataset_id dataset_info = Ok out ->
  exists counts calibrated,
    (if negb (contains (name dataset_id) ["HRV"])
     then _get_visir_channel self dataset_id
     else _get_hrv_channel self) = Ok counts
    /\ calibrate self (where_nonzero counts) dataset_id = Ok calibrated
    /\ (forall i j, cell counts i j = Some 0 ->
          cell (data (where_nonzero counts)) i j = Some nan
          /\ cell (data calibrated) i j = Some nan)
    /\ (is_padded self dataset_id = false ->
        forall i j, cell counts i j = Some 0 ->
                    cell (data out) i j = Some nan)
    /\ (is_padded self dataset_id = true ->
        is_full_disk (mda self) = false ->
        exists south north east west,
          resolved_windows self dataset_id = [(south, north, east, west)]
          /\ forall i j, cell counts i j = Some 0 ->
               cell (data out) (i + Z.to_nat (south - 1))
                    (j + Z.to_nat (east - 1)) = Some nan)
    /\ (is_padded self dataset_id = true ->
        is_full_disk (mda self) = true ->
        let lower := LowerActual (trailer self) in
        let upper := UpperActual (trailer self) in
        let lines := Z.of_nat (List.length (data calibrated)) in
        1 <= SouthLineActual lower ->
        SouthLineActual lower - 1 <= NorthLineActual lower <= lines ->
        1 <= SouthLineActual upper ->
        SouthLineActual upper - 1 <= NorthLineActual upper <= lines ->
        resolved_windows self dataset_id = [window_of lower; window_of upper]
        /\ forall i j, cell counts i j = Some 0 ->
             (SouthLineActual lower <= Z.of_nat i + 1 <= NorthLineActual lower ->
              cell (data out)
                   (i - Z.to_nat (SouthLineActual lower - 1))
                   (j + Z.to_nat (EastColumnActual lower - 1)) = Some nan)
             /\ (SouthLineActual upper <= Z.of_nat i + 1 <= NorthLineActual upper ->
                 cell (data out)
                      (Z.to_nat (NorthLineActual lower - SouthLineActual lower + 1)
                       + (i - Z.to_nat (SouthLineActual upper - 1)))
                      (j + Z.to_nat (EastColumnActual upper - 1)) = Some nan)).
Proof.
  intros H. unfold get_dataset in H.
  destruct (negb (contains (name dataset_id) (channel_list (mda self))));
    [ discriminate H | ].
  destruct (if negb (contains (name dataset_id) ["HRV"])
            then _get_visir_channel self dataset_id
            else _get_hrv_channel self) as [counts | ] eqn:Hc;
    cbn [bind] in H; [ | discriminate H ].
  destruct (calibrate self (where_nonzero counts) dataset_id)
    as [calibrated | ] eqn:Hcal; cbn [bind] in H; [ | discriminate H ].
  exists counts, calibrated.
  split; [ first [ reflexivity | exact Hc ] | ].
  split; [ first [ reflexivity | exact Hcal ] | ].
  assert (Hz : forall i j, cell counts i j = Some 0 ->
                 cell (data calibrated) i j = Some nan).
  { intros i j Hz.
    exact (calibrate_keeps_nodata radiance_keeps_nodata vis_keeps_nodata
             ir_keeps_nodata _ _ _ _ Hcal i j (where_nonzero_zero counts i j Hz)). }
  split.
  { intros i j H0. split; [ now apply where_nonzero_zero | now apply Hz ]. }
  fold (is_padded self dataset_id) in H.
  destruct (is_padded self dataset_id) eqn:Hpad.
  - rewrite get_img_bounds_returns in H. cbn [bind] in H.
    split; [ discriminate | ]. split.
    + intros _ Hfd.
      destruct (resolved_windows_single self dataset_id Hfd)
        as (south & north & east & west & Hw).
      exists south, north, east, west. split; [ exact Hw | ].
      intros i j H0.
      pose proof (fun hw hfd =>
                    pad_data_single _ _ _ south north east west hw hfd H) as Hp.
      destruct (Hp Hw Hfd) as (b & Hb & Hv).
      apply (pad_vertically_places _ _ _ _ _ Hv).
      apply (pad_horizontally_places _ _ _ _ _ Hb).
      cbn [data]. now apply Hz.
    + intros _ Hfd lower upper lines Hs0 Hn0 Hs1 Hn1.
      pose proof (resolved_windows_full_disk_hrv self dataset_id Hfd Hpad) as Hw.
      split; [ exact Hw | ].
      pose proof (fun hw hfd =>
                    pad_data_two _ _ _
                      (SouthLineActual lower) (NorthLineActual lower)
                      (EastColumnActual lower) (WestColumnActual lower)
                      (SouthLineActual upper) (NorthLineActual upper)
                      (EastColumnActual upper) (WestColumnActual upper)
                      hw hfd H) as Hp.
      destruct (Hp Hw Hfd) as (b0 & b1 & H0 & H1 & Hout).
      cbn [data] in H0, H1.
      intros i j Hzero. rewrite Hout. split.
      * intros Hi. apply cell_app_l.
        apply (pad_horizontally_places _ _ _ _ _ H0).
        rewrite cell_py_slice; [ now apply Hz | fold lower; lia .. ].
      * intros Hi.
        replace (Z.to_nat (NorthLineActual lower - SouthLineActual lower + 1))
          with (List.length b0).
        { rewrite cell_app_r.
          apply (pad_horizontally_places _ _ _ _ _ H1).
          rewrite cell_py_slice; [ now apply Hz | fold upper; lia .. ]. }
        rewrite (pad_horizontally_keeps_lines _ _ _ _ _ H0).
        rewrite py_slice_length; fold lower; lia.
  - split; [ | split; discriminate ]. intros _ i j H0.
    injection H as <-. cbn [data]. now apply Hz.
Qed.

End PaddedDatasetFacts.

(** The padding of the sample reader places the data as assumed. *)
Lemma sample_pad_horizontally_keeps_lines (d : raster float)
      (final_size : Z * Z) (east_bound west_bound : Z) (r : raster float) :
  Sample.pad_horizontally d final_size east_bound west_bound = Ok r ->
  List.length r = List.length d.
Proof. intros [= <-]. apply length_map. Qed.

Lemma sample_pad_horizontally_places (d : raster float)
      (final_size : Z * Z) (east_bound west_bound : Z) (r : raster float) :
  Sample.pad_horizontally d final_size east_bound west_bound = Ok r ->
  forall i j v, cell d i j = Some v ->
                cell r i (j + Z.to_nat (east_bound - 1)) = Some v.
Proof.
  intros [= <-] i j v. unfold cell. rewrite nth_error_map.
  destruct (nth_error d i) as [row | ]; cbn [option_map]; [ | discriminate ].
  intros Hv. rewrite nth_error_app2;
    unfold Sample.padding; rewrite repeat_length; [ | lia ].
  replace (j + Z.to_nat (east_bound - 1) - Z.to_nat (east_bound - 1))%nat
    with j by lia.
  rewrite nth_error_app1 by (apply nth_error_Some; congruence).
  exact Hv.
Qed.

Lemma sample_pad_vertically_places (d : raster float)
      (final_size : Z * Z) (south_bound north_bound : Z) (r : raster float) :
  Sample.pad_vertically d final_size south_bound north_bound = Ok r ->
  forall i j v, cell d i j = Some v ->
                cell r (i + Z.to_nat (south_bound - 1)) j = Some v.
Proof.
  intros [= <-] i j v Hv.
  set (top := repeat (Sample.padding (snd final_size))
                     (Z.to_nat (south_bound - 1))).
  replace (i + Z.to_nat (south_bound - 1))%nat with (List.length top + i)%nat
    by (unfold top; rewrite repeat_length; lia).
  rewrite cell_app_r. now apply cell_app_l.
Qed.

(** Reflectances of VIS006 in the rapid-scan sample file, not padded: the
    two zero counts are NaN where they were.  Reflectances of VIS006 in a
    file whose rectangle starts at column 5, padded to the full disk: the
    zero counts of columns 1 and 2 are NaN at columns 5 and 6 of the
    returned dataset.  Counts of the HRV channel of a full disk whose
    lower window is line 1, from column 3, and whose upper window is line
    2, from column 1: the zero counts are NaN in their windows. *)
Lemma zero_counts_are_nodata_witness :
  (exists self out,
     init (SB := Sample.seviri_base) Sample.rapid_scan (Sample.file_trailer true)
          "nominal" false = Ok self
     /\ get_dataset (SB := Sample.seviri_base) Sample.visir_counts Sample.hrv_counts
          self {| name := "VIS006"; calibration := "reflectance" |}
          {| info_units := "%"; info_wavelength := [0.56; 0.635; 0.71]%float;
             info_standard_name := "toa_bidirectional_reflectance" |} = Ok out
     /\ cell (data out) 0 1 = Some nan
     /\ cell (data out) 1 2 = Some nan)
  /\ (exists self out,
        init (SB := Sample.seviri_base) (Sample.file_header 2 3712 5 1 3712 3712)
             (Sample.file_trailer false) "nominal" true = Ok self
        /\ get_dataset (SB := Sample.seviri_base) Sample.visir_counts Sample.hrv_counts
             self {| name := "VIS006"; calibration := "reflectance" |}
             {| info_units := "%"; info_wavelength := [0.56; 0.635; 0.71]%float;
                info_standard_name := "toa_bidirectional_reflectance" |} = Ok out
        /\ cell (data out) 0 5 = Some nan
        /\ cell (data out) 1 6 = Some nan)
  /\ (exists self out,
        init (SB := Sample.seviri_base) Sample.full_disk
             {| ReducedScan := false;
                LowerActual := {| SouthLineActual := 1; NorthLineActual := 1;
                                  EastColumnActual := 3; WestColumnActual := 5 |};
                UpperActual := {| SouthLineActual := 2; NorthLineActual := 2;
                                  EastColumnActual := 1; WestColumnActual := 3 |} |}
             "nominal" true = Ok self
        /\ get_dataset (SB := Sample.seviri_base) Sample.visir_counts Sample.hrv_counts
             self {| name := "HRV"; calibration := "counts" |}
             {| info_units := "1"; info_wavelength := [0.5; 0.7; 0.9]%float;
                info_standard_name := "counts" |} = Ok out
        /\ cell (data out) 0 2 = Some nan
        /\ cell (data out) 1 1 = Some nan).
Proof.
  split; [ | split ].
  - eexists. eexists.
    split; [ vm_compute; reflexivity | ].
    match goal with
    | |- ?g = Ok ?o /\ _ => assert (Hget : g = Ok o) by (vm_compute; reflexivity)
    end.
    split; [ exact Hget | ].
    destruct (zero_counts_are_nodata (SB := Sample.seviri_base)
                Sample.visir_counts Sample.hrv_counts
                sample_radiance_keeps_nodata sample_vis_keeps_nodata
                sample_ir_keeps_nodata sample_pad_horizontally_keeps_lines
                sample_pad_horizontally_places sample_pad_vertically_places
                _ _ _ _ Hget)
      as (counts & calibrated & Hc & _ & _ & Hsame & _).
    injection Hc as <-.
    split; [ exact (Hsame eq_refl 0%nat 1%nat eq_refl)
           | exact (Hsame eq_refl 1%nat 2%nat eq_refl) ].
  - eexists. eexists.
    split; [ vm_compute; reflexivity | ].
    match goal with
    | |- ?g = Ok ?o /\ _ => assert (Hget : g = Ok o) by (vm_compute; reflexivity)
    end.
    split; [ exact Hget | ].
    destruct (zero_counts_are_nodata (SB := Sample.seviri_base)
                Sample.visir_counts Sample.hrv_counts
                sample_radiance_keeps_nodata sample_vis_keeps_nodata
                sample_ir_keeps_nodata sample_pad_horizontally_keeps_lines
                sample_pad_horizontally_places sample_pad_vertically_places
                _ _ _ _ Hget)
      as (counts & calibrated & Hc & _ & _ & _ & Hpad & _).
    injection Hc as <-.
    destruct (Hpad eq_refl eq_refl) as (south & north & east & west & Hw & Hz).
    vm_compute in Hw. injection Hw as <- <- <- <-.
    split; [ exact (Hz 0%nat 1%nat eq_refl) | exact (Hz 1%nat 2%nat eq_refl) ].
  - eexists. eexists.
    split; [ vm_compute; reflexivity | ].
    match goal with
    | |- ?g = Ok ?o /\ _ => assert (Hget : g = Ok o) by (vm_compute; reflexivity)
    end.
    split; [ exact Hget | ].
    destruct (zero_counts_are_nodata (SB := Sample.seviri_base)
                Sample.visir_counts Sample.hrv_counts
                sample_radiance_keeps_nodata sample_vis_keeps_nodata
                sample_ir_keeps_nodata sample_pad_horizontally_keeps_lines
                sample_pad_horizontally_places sample_pad_vertically_places
                _ _ _ _ Hget)
      as (counts & calibrated & Hc & Hcal & _ & _ & _ & Hfull).
    injection Hc as <-. vm_compute in Hcal. injection Hcal as <-.
    destruct (Hfull eq_refl eq_refl) as [_ Hz];
      [ vm_compute; intuition congruence .. | ].
    split.
    + apply (proj1 (Hz 0%nat 0%nat eq_refl)). vm_compute; intuition congruence.
    + apply (proj2 (Hz 1%nat 1%nat eq_refl)). vm_compute; intuition congruence.
Defined.
